(** * Karakeep Markdown Importer: a shallow embedding of [importer.js]

    The script reads the selected files one after the other, derives a
    bookmark title from each file name, posts a text bookmark to the Karakeep
    API and keeps two counters that it reports in a final summary.

    Conventions of the embedding.
    - A JavaScript string is a [string]; one character of the model stands
      for one UTF-16 code unit (code units below 256), so [String.length] is
      the [.length] of the source and [substring] counts the same units.
    - Asynchronous functions are sequenced in the order of their [await]s.
    - Everything the script does to the outside world (log lines, the start
      button, file reads, network calls, pauses) is an [Event] appended to
      the state; exceptions are explicit ([Throw]).
    - A log line is a [Message]: one constructor per template literal of the
      source, carrying the interpolated values.  The timestamp prefix that
      [logMessage] adds is left out. *)

From Stdlib Require Import List String Ascii Arith ZArith Bool Lia.
From Stdlib Require Import DecimalString.
From Stdlib Require Import Floats.SpecFloat.
Import ListNotations.
Set Warnings "-register-all".
Open Scope string_scope.
Open Scope list_scope.
Open Scope nat_scope.

(** ** JavaScript string primitives used by the script *)

Module JSString.

(** [s.length] *)
Definition length (s : string) : nat := String.length s.

(** [s.substring(0, n)] : the first [n] code units (all of [s] if shorter). *)
Fixpoint substring0 (n : nat) (s : string) : string :=
  match n, s with
  | S n', String c rest => String c (substring0 n' rest)
  | _, _ => EmptyString
  end.

(** [s.endsWith(suffix)] *)
Definition endsWith (s suffix : string) : bool :=
  let ls := String.length s in
  let lx := String.length suffix in
  (lx <=? ls) && String.eqb (String.substring (ls - lx) lx s) suffix.

(** Lower-casing of one code unit below 256: [A-Z] and the Latin-1 capitals
    (U+00C0..U+00DE without the multiplication sign U+00D7) move up by 32. *)
Definition lower_char (c : ascii) : ascii :=
  let n := nat_of_ascii c in
  if ((65 <=? n) && (n <=? 90))
     || ((192 <=? n) && (n <=? 222) && negb (n =? 215))
  then ascii_of_nat (n + 32) else c.

(** [s.toLowerCase()] *)
Fixpoint toLowerCase (s : string) : string :=
  match s with
  | EmptyString => EmptyString
  | String c rest => String (lower_char c) (toLowerCase rest)
  end.

(** White space and line terminators removed by [trim] (below 256):
    TAB, LF, VT, FF, CR, SPACE and NBSP. *)
Definition is_space (c : ascii) : bool :=
  let n := nat_of_ascii c in
  ((9 <=? n) && (n <=? 13)) || (n =? 32) || (n =? 160).

Fixpoint trimStart (s : string) : string :=
  match s with
  | String c rest => if is_space c then trimStart rest else s
  | EmptyString => EmptyString
  end.

(** Drops the trailing white space: a character stays when it is not a
    space or when something stays after it. *)
Fixpoint trimEnd (s : string) : string :=
  match s with
  | EmptyString => EmptyString
  | String c rest =>
      match trimEnd rest with
      | EmptyString => if is_space c then EmptyString else String c EmptyString
      | kept => String c kept
      end
  end.

(** [s.trim()] *)
Definition trim (s : string) : string := trimEnd (trimStart s).

(** [s.replace(/\/$/, '')] : one slash at the very end is removed. *)
Fixpoint removeTrailingSlash (s : string) : string :=
  match s with
  | EmptyString => EmptyString
  | String c EmptyString => if Ascii.eqb c "/" then EmptyString else s
  | String c rest => String c (removeTrailingSlash rest)
  end.

(** Decimal rendering of a non-negative integer inside a template literal. *)
Definition ofNat (n : nat) : string := NilEmpty.string_of_uint (Nat.to_uint n).

(** The double-quote character. *)
Definition dquote : string := String (ascii_of_nat 34) EmptyString.

End JSString.

(** ** Title helpers *)

(** [const MAX_KARAKEEP_TITLE_LENGTH = 255] *)
Definition MAX_KARAKEEP_TITLE_LENGTH : nat := 255.

(** The character class [[^/.]] of the extension pattern. *)
Definition ext_char (c : ascii) : bool :=
  negb (Ascii.eqb c "/") && negb (Ascii.eqb c ".").

(** [[^/.]+$] : what is left is non-empty and made of [ext_char]s only. *)
Fixpoint ext_tail (s : string) : bool :=
  match s with
  | EmptyString => false
  | String c EmptyString => ext_char c
  | String c rest => ext_char c && ext_tail rest
  end.

(** [fullFileName.replace(/\.[^/.]+$/, ...)] with the empty string as the
    replacement.  The pattern is tried at each
    position from the left; the first position with a dot followed by
    [[^/.]+] up to the end of the input is where the match starts, and the
    match (which runs to the end) is replaced by the empty string.  Without a
    match the name is returned as it is. *)
Fixpoint getFileNameWithoutExtension (fullFileName : string) : string :=
  match fullFileName with
  | EmptyString => EmptyString
  | String c rest =>
      if Ascii.eqb c "." && ext_tail rest then EmptyString
      else String c (getFileNameWithoutExtension rest)
  end.

(** The body of [truncateTitle] for an arbitrary limit. *)
Definition truncateTitleTo (limit : nat) (title : string) : string :=
  if limit <? JSString.length title then
    if 3 <=? limit then (JSString.substring0 (limit - 3) title ++ "...")%string
    else JSString.substring0 limit title
  else title.

(** [truncateTitle(title)] *)
Definition truncateTitle (title : string) : string :=
  truncateTitleTo MAX_KARAKEEP_TITLE_LENGTH title.

(** What the specification says of the title derivation: everything from the
    final dot on is removed; a name without a dot is unchanged.  Used only
    for comparison with [getFileNameWithoutExtension]. *)
Fixpoint has_dot (s : string) : bool :=
  match s with
  | EmptyString => false
  | String c rest => Ascii.eqb c "." || has_dot rest
  end.

Fixpoint strip_from_final_dot (s : string) : string :=
  match s with
  | EmptyString => EmptyString
  | String c rest =>
      if Ascii.eqb c "." && negb (has_dot rest) then EmptyString
      else String c (strip_from_final_dot rest)
  end.

(** ** Values, errors and the HTTP exchange *)

(** A thrown [Error]; the script only ever reads its [message]. *)
Record Error : Type := mkError { message : string }.

(** Completion of a call: a value or a thrown error. *)
Inductive Result (A : Type) : Type :=
| Ok (a : A)
| Throw (e : Error).
Arguments Ok {A} a.
Arguments Throw {A} e.

(** A value produced by [response.json()].  Numbers are IEEE doubles; the
    members of an object are listed in the order of the JSON text, a later
    member of the same name replacing an earlier one. *)
Inductive JSValue : Type :=
| JNull
| JBool (b : bool)
| JNumber (x : spec_float)
| JString (s : string)
| JArray (elems : list JSValue)
| JObject (members : list (string * JSValue)).

(** The text of [String(v)].  The decimal rendering of a double is kept
    symbolic ([PNumber]); it is never the empty string. *)
Inductive Piece : Type :=
| PText (s : string)
| PNumber (x : spec_float).

Definition Text : Type := list Piece.

Definition Piece_isEmpty (p : Piece) : bool :=
  match p with
  | PText s => String.eqb s EmptyString
  | PNumber _ => false
  end.

Definition Text_isEmpty (t : Text) : bool := forallb Piece_isEmpty t.

(** Own property lookup [obj[key]] on a parsed object ([None] is
    [undefined]). *)
Fixpoint getMember (key : string) (members : list (string * JSValue)) : option JSValue :=
  match members with
  | [] => None
  | (k, v) :: rest =>
      match getMember key rest with
      | Some later => Some later
      | None => if String.eqb k key then Some v else None
      end
  end.

(** [data?.id] : [undefined] for [null], for primitives and arrays, and for
    objects without an [id] member. *)
Definition get_id (data : JSValue) : option JSValue :=
  match data with
  | JObject members => getMember "id" members
  | _ => None
  end.

(** Truthiness of [data?.id] in a conditional. *)
Definition truthy (v : option JSValue) : bool :=
  match v with
  | None => false
  | Some JNull => false
  | Some (JBool b) => b
  | Some (JNumber (S754_zero _)) => false
  | Some (JNumber S754_nan) => false
  | Some (JNumber _) => true
  | Some (JString s) => negb (String.eqb s EmptyString)
  | Some (JArray _) => true
  | Some (JObject _) => true
  end.

Definition cannot_convert : Error :=
  mkError "Cannot convert object to primitive value".

(** [String(v)].  A parsed object has no callable [toString] of its own:
    with an own [toString] member the conversion throws a TypeError, without
    one it is the text of [Object.prototype.toString].  An array is joined
    with commas, [null] elements giving the empty string. *)
Fixpoint js_String (v : JSValue) : Result Text :=
  match v with
  | JNull => Ok [PText "null"]
  | JBool true => Ok [PText "true"]
  | JBool false => Ok [PText "false"]
  | JNumber x => Ok [PNumber x]
  | JString s => Ok [PText s]
  | JArray elems =>
      (fix join (first : bool) (l : list JSValue) {struct l} : Result Text :=
         match l with
         | [] => Ok []
         | x :: rest =>
             match (match x with JNull => Ok [] | _ => js_String x end) with
             | Throw e => Throw e
             | Ok t =>
                 match join false rest with
                 | Throw e => Throw e
                 | Ok t' => Ok ((if first then [] else [PText ","]) ++ t ++ t')
                 end
             end
         end) true elems
  | JObject members =>
      match getMember "toString" members with
      | Some _ => Throw cannot_convert
      | None => Ok [PText "[object Object]"]
      end
  end.

(** What the script can observe of a [Response]. *)
Record Response : Type := mkResponse {
  status : nat;
  statusText : string;
  contentLength : option string;      (* headers.get('content-length') *)
  text : Result string;               (* await response.text() *)
  json : Result JSValue               (* await response.json() *)
}.

(** [response.ok] : the status is in the range 200-299. *)
Definition ok (r : Response) : bool := (200 <=? status r) && (status r <=? 299).

(** Settlement of the promise returned by [fetch]. *)
Inductive FetchOutcome : Type :=
| Rejected (e : Error)
| Resolved (r : Response).

(** The object literal [payload] of [createRootItemInKarakeep]. *)
Record Payload : Type := mkPayload {
  p_title : string;
  p_text : string;
  p_type : string;
  p_archived : bool;
  p_favourited : bool;
  p_note : string;
  p_summary : string
}.

(** The arguments of [fetch(url, options)]; [req_body] is the object that
    [JSON.stringify] serialises, absent when [body] is [null]. *)
Record Request : Type := mkRequest {
  req_url : string;
  req_method : string;
  req_headers : list (string * string);
  req_body : option Payload
}.

(** A selected file: its name and what [FileReader.readAsText] ends with,
    the text or the code of the reader's error. *)
Record File : Type := mkFile {
  name : string;
  content : string + nat
}.

(** Iterating [files] with [for ... of]: the iterator yields a file, is
    done, or throws. *)
Inductive FileIter : Type :=
| IterDone
| IterYield (file : File) (rest : FileIter)
| IterThrow (e : Error).

(** [markdownFilesInput.files] : its [length] and its iteration. *)
Record FileList : Type := mkFileList {
  files_length : nat;
  files_iter : FileIter
}.

Fixpoint iter_of_list (l : list File) : FileIter :=
  match l with
  | [] => IterDone
  | f :: rest => IterYield f (iter_of_list rest)
  end.

(** The [FileList] of a file input holding the files [l]. *)
Definition FileList_of (l : list File) : FileList :=
  mkFileList (List.length l) (iter_of_list l).

(** The three form fields read by [startImportProcess]. *)
Record Inputs : Type := mkInputs {
  karakeepUrl : string;               (* karakeepUrlInput.value *)
  karakeepApiKey : string;            (* karakeepApiKeyInput.value *)
  markdownFiles : option FileList     (* markdownFilesInput.files, or null *)
}.

(** ** Effects: the log, the observable events and the run state *)

(** The log lines of the script, one constructor per template. *)
Inductive Message : Type :=
| MsgLogCleared                                    (* Log cleared. *)
| MsgStarting                                      (* --- Starting Markdown Import Process --- *)
| MsgValidationError                               (* ERROR: Please fill in API URL, API Key, and select ... *)
| MsgUrlWarning                                    (* Warning: API URL doesn't end with '/api/v1'. ... *)
| MsgProcessingAll (totalFiles : nat)              (* --- Processing ${totalFiles} Markdown file(s) --- *)
| MsgProcessingFile (count totalFiles : nat) (fileName : string)
                                                   (* [${count}/${totalFiles}] Processing file: ${name} *)
| MsgSkipping (fileName : string)                  (* Skipping file "${name}" as it does not have a .md extension. *)
| MsgReadContent (fileName : string) (chars : nat) (* Read content of "${name}" (${length} chars) *)
| MsgImportFailed (fileName : string)              (* Failed to import "${name}" to Karakeep. Check logs above. *)
| MsgFileError (fileName : string) (reason : string)
                                                   (* Error processing file "${name}": ${error.message} *)
| MsgFatal (reason : string)                       (* FATAL ERROR during import process: ${error.message} *)
| MsgHalted                                        (* Import process halted. *)
| MsgSummary                                       (* --- Import Run Summary --- *)
| MsgTotalSelected (totalFiles : nat)              (* Total Markdown Files Selected: ${totalFiles} *)
| MsgAttempted (processed : nat)                   (* Files Processed Attempted: ${filesProcessedCount} *)
| MsgImported (succeeded : nat)                    (* Files Imported Successfully to Karakeep: ${...} *)
| MsgEndOfRun                                      (* --- End of Run --- *)
| MsgApiRequest (method url : string)              (* API Request: ${method} ${url} *)
| MsgApiResponseError (method url : string) (st : nat)
                                                   (* API Response Error: ${method} ${url} -> Status ${status} *)
| MsgApiNoContent (method url : string) (st : nat) (* API Response OK: ... -> Status ${status} (No Content) *)
| MsgApiOk (method url : string) (st : nat)        (* API Response OK: ${method} ${url} -> Status ${status} *)
| MsgFetchError (method url reason : string)       (* Fetch Error for ${method} ${url}: ${error.message} *)
| MsgAttempting (operation title : string)         (* Attempting ${operation}: Create global bookmark for "${title}"... *)
| MsgNoId (title : string) (data : JSValue)        (* ERROR: Could not extract 'id' from POST /bookmarks response
                                                      for "${title}". Response: ${JSON.stringify(data).substring(0, 200)}... *)
| MsgCreated (operation : string) (id : Text) (title : string)
                                                   (* Successfully ${operation}D Bookmark ID ${id} for "${title}" *)
| MsgCreateError (operation title reason : string) (* An unexpected error occurred during ${operation} for "${title}": ${error.message} *).

(** What a run does to its surroundings. *)
Inductive Event : Type :=
| EvClearLog                                       (* logOutput.innerHTML = '' *)
| EvLog (m : Message) (isError : bool)             (* logMessage(m, isError) *)
| EvButtonDisabled (b : bool)                      (* startButton.disabled = b *)
| EvRead (fileName : string)                       (* reader.readAsText(file) *)
| EvFetch (r : Request)                            (* fetch(url, options) *)
| EvSleep (ms : nat).                              (* await sleep(ms) *)

(** The state threaded through a run: the events so far, latest first, and
    the two counters of [startImportProcess] (which hold 0 until the run
    declares them). *)
Record State : Type := mkState {
  events : list Event;
  filesProcessedCount : nat;
  filesSyncedSuccessfully : nat
}.

Definition initial : State := mkState [] 0 0.

(** The events in the order in which they happened. *)
Definition trace (st : State) : list Event := rev (events st).

Definition is_fetch (e : Event) : bool :=
  match e with EvFetch _ => true | _ => false end.

(** The network calls made so far, latest first. *)
Fixpoint requests_of (evs : list Event) : list Request :=
  match evs with
  | [] => []
  | EvFetch r :: rest => r :: requests_of rest
  | _ :: rest => requests_of rest
  end.

(** The files handed to the reader so far, latest first. *)
Fixpoint reads_of (evs : list Event) : list string :=
  match evs with
  | [] => []
  | EvRead n :: rest => n :: reads_of rest
  | _ :: rest => reads_of rest
  end.

(** The log entries written so far, latest first. *)
Fixpoint log_of (evs : list Event) : list (Message * bool) :=
  match evs with
  | [] => []
  | EvLog m b :: rest => (m, b) :: log_of rest
  | _ :: rest => log_of rest
  end.

(** The remote service: how the [n]-th network call of a run (counted from
    0) settles, given its request. *)
Record Env : Type := mkEnv {
  fetch : nat -> Request -> FetchOutcome
}.

(** A computation: it may read and extend the state and ends with a value
    or a thrown error. *)
Definition M (A : Type) : Type := State -> Result A * State.

Definition ret {A} (a : A) : M A := fun st => (Ok a, st).

Definition throw {A} (e : Error) : M A := fun st => (Throw e, st).

Definition bind {A B} (m : M A) (k : A -> M B) : M B :=
  fun st =>
    match m st with
    | (Ok a, st') => k a st'
    | (Throw e, st') => (Throw e, st')
    end.

(** [try { body } catch (e) { handler }] *)
Definition try_catch {A} (body : M A) (handler : Error -> M A) : M A :=
  fun st =>
    match body st with
    | (Ok a, st') => (Ok a, st')
    | (Throw e, st') => handler e st'
    end.

(** [try { body } finally { final }] : [final] runs whatever [body] ended
    with, and an error thrown by [final] replaces that ending. *)
Definition try_finally {A} (body : M A) (final : M unit) : M A :=
  fun st =>
    match body st with
    | (r, st') =>
        match final st' with
        | (Ok _, st'') => (r, st'')
        | (Throw e, st'') => (Throw e, st'')
        end
    end.

Declare Scope js_scope.
Delimit Scope js_scope with js.
Notation "x <- m ;; k" := (bind m (fun x => k))
  (at level 61, m at next level, right associativity) : js_scope.
Notation "m ;; k" := (bind m (fun _ => k))
  (at level 61, right associativity) : js_scope.
Open Scope js_scope.

Definition emit (e : Event) : M unit :=
  fun st => (Ok tt, mkState (e :: events st) (filesProcessedCount st) (filesSyncedSuccessfully st)).

Definition get {A} (f : State -> A) : M A := fun st => (Ok (f st), st).

(** [logMessage(message, isError)] *)
Definition logMessage (m : Message) (isError : bool) : M unit := emit (EvLog m isError).

(** [clearLog()] *)
Definition clearLog : M unit := emit EvClearLog ;; logMessage MsgLogCleared false.

(** [sleep(ms)] *)
Definition sleep (ms : nat) : M unit := emit (EvSleep ms).

Definition setProcessed (n : nat) : M unit :=
  fun st => (Ok tt, mkState (events st) n (filesSyncedSuccessfully st)).

Definition setSynced (n : nat) : M unit :=
  fun st => (Ok tt, mkState (events st) (filesProcessedCount st) n).

(** [readFileContent(file)] : resolves with the text, or rejects with the
    error built in [reader.onerror]. *)
Definition readFileContent (file : File) : M string :=
  emit (EvRead (name file)) ;;
  match content file with
  | inl txt => ret txt
  | inr code =>
      throw (mkError ("File " ++ JSString.dquote ++ name file ++ JSString.dquote
                      ++ " could not be read! Code: " ++ JSString.ofNat code)%string)
  end.

(** ** The script *)

Section Importer.

Variable env : Env.

(** [await fetch(url, options)] : the call is recorded, then settles as the
    service decides for this call. *)
Definition do_fetch (r : Request) : M Response :=
  n <- get (fun st => List.length (requests_of (events st))) ;;
  emit (EvFetch r) ;;
  match fetch env n r with
  | Rejected e => throw e
  | Resolved resp => ret resp
  end.

(** [await response.text()] and [await response.json()] *)
Definition lift {A} (r : Result A) : M A :=
  match r with
  | Ok a => ret a
  | Throw e => throw e
  end.

(** [fetchKarakeep(url, method, apiKey, body)] : the parsed JSON of the
    response, [null] for an empty response; throws on a failed fetch, on a
    status outside 200-299 and on a body that is not JSON. *)
Definition fetchKarakeep (url method apiKey : string) (body : option Payload)
  : M JSValue :=
  let options :=
    mkRequest url method
      [("Authorization", ("Bearer " ++ apiKey)%string);
       ("Content-Type", "application/json");
       ("Accept", "application/json")]
      body in
  logMessage (MsgApiRequest method url) false ;;
  try_catch
    (response <- do_fetch options ;;
     if negb (ok response) then
       let errorText :=
         ("API Error: " ++ JSString.ofNat (status response) ++ " "
          ++ statusText response)%string in
       errorText <-
         try_catch
           (errorBody <- lift (text response) ;;
            ret (errorText ++ " - " ++ JSString.substring0 200 errorBody)%string)
           (fun _ => ret errorText) ;;
       logMessage (MsgApiResponseError method url (status response)) true ;;
       throw (mkError errorText)
     else if (status response =? 204)
             || match contentLength response with
                | Some v => String.eqb v "0"
                | None => false
                end
     then
       logMessage (MsgApiNoContent method url (status response)) false ;;
       ret JNull
     else
       data <- lift (json response) ;;
       logMessage (MsgApiOk method url (status response)) false ;;
       ret data)
    (fun error =>
       logMessage (MsgFetchError method url (message error)) true ;;
       throw error).

(** The literal [payload] built from the title and the file content. *)
Definition make_payload (title textContent : string) : Payload :=
  mkPayload (truncateTitle title) textContent "text" false false
    ("Imported from Markdown file: " ++ title ++ ".md")%string
    EmptyString.

(** [createRootItemInKarakeep(apiUrl, apiKey, title, textContent)] *)
Definition createRootItemInKarakeep (apiUrl apiKey title textContent : string)
  : M bool :=
  let payload := make_payload title textContent in
  let operation := "CREATE" in
  logMessage (MsgAttempting operation title) false ;;
  let createUrl := (apiUrl ++ "/bookmarks")%string in
  try_catch
    (createdBookmarkData <- fetchKarakeep createUrl "POST" apiKey (Some payload) ;;
     newBookmarkId <-
       (if truthy (get_id createdBookmarkData) then
          match get_id createdBookmarkData with
          | Some id => t <- lift (js_String id) ;; ret (Some t)
          | None => ret None
          end
        else ret None) ;;
     match newBookmarkId with
     | Some id =>
         if Text_isEmpty id then
           logMessage (MsgNoId title createdBookmarkData) true ;;
           ret false
         else
           logMessage (MsgCreated operation id title) false ;;
           ret true
     | None =>
         logMessage (MsgNoId title createdBookmarkData) true ;;
         ret false
     end)
    (fun error =>
       logMessage (MsgCreateError operation title (message error)) true ;;
       ret false).

(** [originalFileName.toLowerCase().endsWith('.md')] *)
Definition is_md (fileName : string) : bool :=
  JSString.endsWith (JSString.toLowerCase fileName) ".md".

(** One iteration of the [for ... of] loop. *)
Definition processFile (apiUrl apiKey : string) (totalFiles : nat) (file : File)
  : M unit :=
  n <- get filesProcessedCount ;;
  setProcessed (n + 1) ;;
  let originalFileName := name file in
  n <- get filesProcessedCount ;;
  logMessage (MsgProcessingFile n totalFiles originalFileName) false ;;
  if negb (is_md originalFileName) then
    logMessage (MsgSkipping originalFileName) true      (* continue *)
  else
    try_catch
      (markdownContent <- readFileContent file ;;
       logMessage (MsgReadContent originalFileName (JSString.length markdownContent)) false ;;
       let itemTitle := getFileNameWithoutExtension originalFileName in
       syncSuccess <- createRootItemInKarakeep apiUrl apiKey itemTitle markdownContent ;;
       if syncSuccess : bool then
         k <- get filesSyncedSuccessfully ;;
         setSynced (k + 1)
       else
         logMessage (MsgImportFailed originalFileName) true)
      (fun fileReadError =>
         logMessage (MsgFileError originalFileName (message fileReadError)) true) ;;
    sleep 100.

(** [for (const file of files) { ... }] *)
Fixpoint processFiles (apiUrl apiKey : string) (totalFiles : nat) (files : FileIter)
  : M unit :=
  match files with
  | IterDone => ret tt
  | IterThrow e => throw e
  | IterYield file rest =>
      processFile apiUrl apiKey totalFiles file ;;
      processFiles apiUrl apiKey totalFiles rest
  end.

(** The [finally] block: the summary and the button. *)
Definition finalizeRun (totalFiles : nat) : M unit :=
  logMessage MsgSummary false ;;
  logMessage (MsgTotalSelected totalFiles) false ;;
  p <- get filesProcessedCount ;;
  logMessage (MsgAttempted p) false ;;
  s <- get filesSyncedSuccessfully ;;
  logMessage (MsgImported s) false ;;
  logMessage MsgEndOfRun false ;;
  emit (EvButtonDisabled false).

(** The normalised inputs of a run. *)
Definition apiUrl_of (inp : Inputs) : string :=
  JSString.removeTrailingSlash (JSString.trim (karakeepUrl inp)).

Definition apiKey_of (inp : Inputs) : string := JSString.trim (karakeepApiKey inp).

(** The basic validation: [!apiUrl || !apiKey || !files || files.length === 0]. *)
Definition invalid (inp : Inputs) : bool :=
  String.eqb (apiUrl_of inp) EmptyString
  || String.eqb (apiKey_of inp) EmptyString
  || match markdownFiles inp with
     | None => true
     | Some files => files_length files =? 0
     end.

(** [startImportProcess()] *)
Definition startImportProcess (inp : Inputs) : M unit :=
  clearLog ;;
  emit (EvButtonDisabled true) ;;
  logMessage MsgStarting false ;;
  let apiUrl := apiUrl_of inp in
  let apiKey := apiKey_of inp in
  match markdownFiles inp with
  | Some files =>
      if invalid inp then
        logMessage MsgValidationError true ;;
        emit (EvButtonDisabled false)
      else
        (if negb (JSString.endsWith apiUrl "/api/v1")
         then logMessage MsgUrlWarning true else ret tt) ;;
        setProcessed 0 ;;
        setSynced 0 ;;
        let totalFiles := files_length files in
        try_finally
          (try_catch
             (logMessage (MsgProcessingAll totalFiles) false ;;
              processFiles apiUrl apiKey totalFiles (files_iter files))
             (fun error =>
                logMessage (MsgFatal (message error)) true ;;
                logMessage MsgHalted true))
          (finalizeRun totalFiles)
  | None =>
      logMessage MsgValidationError true ;;
      emit (EvButtonDisabled false)
  end.

End Importer.

(** ** Reading the outcome of a create call *)

(** The request that [createRootItemInKarakeep] hands to [fetch]. *)
Definition bookmark_request (apiUrl apiKey title textContent : string) : Request :=
  mkRequest (apiUrl ++ "/bookmarks")%string "POST"
    [("Authorization", ("Bearer " ++ apiKey)%string);
     ("Content-Type", "application/json");
     ("Accept", "application/json")]
    (Some (make_payload title textContent)).

(** The parsed body carries an [id] that is truthy and whose [String()] is a
    non-empty text. *)
Definition usable_id (data : JSValue) : bool :=
  match get_id data with
  | Some id =>
      truthy (Some id)
      && match js_String id with
         | Ok t => negb (Text_isEmpty t)
         | Throw _ => false
         end
  | None => false
  end.

(** The response is treated as empty: status 204 or a [content-length]
    header equal to ["0"]. *)
Definition no_content (r : Response) : bool :=
  (status r =? 204)
  || match contentLength r with
     | Some v => String.eqb v "0"
     | None => false
     end.

(** The settlements of the network call after which the bookmark counts as
    created. *)
Definition confirms (o : FetchOutcome) : bool :=
  match o with
  | Rejected _ => false
  | Resolved r =>
      ok r && negb (no_content r)
      && match json r with
         | Ok data => usable_id data
         | Throw _ => false
         end
  end.

(** Whether a log entry reports a failed creation. *)
Definition reports_failure (e : Event) : bool :=
  match e with
  | EvLog (MsgNoId _ _) true => true
  | EvLog (MsgCreateError _ _ _) true => true
  | _ => false
  end.

(** A title of 300 characters. *)
Definition long_title : string :=
  Eval cbv in
    string_of_list_ascii (List.repeat "x"%char 300).

(** ** Reading a run *)

(** The names in the read-error entries of the log, latest first. *)
Fixpoint file_errors_of (evs : list Event) : list string :=
  match evs with
  | [] => []
  | EvLog (MsgFileError n _) true :: rest => n :: file_errors_of rest
  | _ :: rest => file_errors_of rest
  end.

(** The names in the skip warnings of the log, latest first. *)
Fixpoint skipped_of (evs : list Event) : list string :=
  match evs with
  | [] => []
  | EvLog (MsgSkipping n) true :: rest => n :: skipped_of rest
  | _ :: rest => skipped_of rest
  end.

(** The request a file leads to: none for a file that fails the extension
    test or cannot be read. *)
Definition request_for (apiUrl apiKey : string) (file : File) : option Request :=
  if is_md (name file) then
    match content file with
    | inl txt =>
        Some (bookmark_request apiUrl apiKey
                (getFileNameWithoutExtension (name file)) txt)
    | inr _ => None
    end
  else None.

(** The requests of a list of files, in the order of the files. *)
Fixpoint expected_requests (apiUrl apiKey : string) (files : list File) : list Request :=
  match files with
  | [] => []
  | f :: rest =>
      match request_for apiUrl apiKey f with
      | Some r => r :: expected_requests apiUrl apiKey rest
      | None => expected_requests apiUrl apiKey rest
      end
  end.

(** How many of the files end up created, when [calls] network calls were
    made before the first of them. *)
Fixpoint succeeded_from (env : Env) (apiUrl apiKey : string) (calls : nat)
  (files : list File) : nat :=
  match files with
  | [] => 0
  | f :: rest =>
      match request_for apiUrl apiKey f with
      | Some r =>
          (if confirms (fetch env calls r) then 1 else 0)
          + succeeded_from env apiUrl apiKey (S calls) rest
      | None => succeeded_from env apiUrl apiKey calls rest
      end
  end.

Definition md_file (f : File) : bool := is_md (name f).

Definition unreadable_md (f : File) : bool :=
  is_md (name f) && match content f with inl _ => false | inr _ => true end.

(** The files an iteration yields before it stops, and the error it stops
    with, if any. *)
Fixpoint yielded (it : FileIter) : list File :=
  match it with
  | IterDone => []
  | IterThrow _ => []
  | IterYield f rest => f :: yielded rest
  end.

Fixpoint fault (it : FileIter) : option Error :=
  match it with
  | IterDone => None
  | IterThrow e => Some e
  | IterYield _ rest => fault rest
  end.

(** The six events of the [finally] block, latest first. *)
Definition summary_events (totalFiles processed succeeded : nat) : list Event :=
  [EvButtonDisabled false;
   EvLog MsgEndOfRun false;
   EvLog (MsgImported succeeded) false;
   EvLog (MsgAttempted processed) false;
   EvLog (MsgTotalSelected totalFiles) false;
   EvLog MsgSummary false].

(** The two entries of the outer [catch] block, latest first. *)
Definition halt_events (stopped : option Error) : list Event :=
  match stopped with
  | Some e => [EvLog MsgHalted true; EvLog (MsgFatal (message e)) true]
  | None => []
  end.

(** The events of a run up to its loop, latest first. *)
Definition opening_events (apiUrl : string) (totalFiles : nat) : list Event :=
  [EvLog (MsgProcessingAll totalFiles) false]
  ++ (if JSString.endsWith apiUrl "/api/v1" then [] else [EvLog MsgUrlWarning true])
  ++ [EvLog MsgStarting false; EvButtonDisabled true;
      EvLog MsgLogCleared false; EvClearLog].

(** The events of a run that fails the validation, latest first. *)
Definition rejected_events : list Event :=
  [EvButtonDisabled false; EvLog MsgValidationError true;
   EvLog MsgStarting false; EvButtonDisabled true;
   EvLog MsgLogCleared false; EvClearLog].

(** ** Sample data *)

Definition sample_url : string := "http://localhost:3000/api/v1".

Definition sample_key : string := "secret".

(** The JSON text of an object with the single member [id]. *)
Definition id_body (v : string) : string :=
  ("{" ++ JSString.dquote ++ "id" ++ JSString.dquote ++ ":" ++ v ++ "}")%string.

(** A 201 response whose body is an object with the member [id]. *)
Definition created_with (id : JSValue) (body : string) : Response :=
  mkResponse 201 "Created" None (Ok body) (Ok (JObject [("id", id)])).

(** A 500 response with a plain-text body. *)
Definition internal_error : Response :=
  mkResponse 500 "Internal Server Error" None (Ok "Internal error")
    (Throw (mkError "Unexpected token 'I'")).

(** A service that settles every call with the same response. *)
Definition always (r : Response) : Env := mkEnv (fun _ _ => Resolved r).

(** The doubles 42 and 0. *)
Definition forty_two : spec_float := S754_finite false 5910974510923776 (-47).

Definition zero : spec_float := S754_zero false.

(** A file input holding one picture, and one holding three Markdown files
    the second of which cannot be read. *)
Definition picture_only : Inputs :=
  mkInputs sample_url sample_key
    (Some (FileList_of [mkFile "photo.png" (inl "binary")])).

Definition three_files : list File :=
  [mkFile "a.md" (inl "alpha"); mkFile "b.md" (inr 4); mkFile "c.MD" (inl "gamma")].

Definition three_inputs : Inputs :=
  mkInputs sample_url sample_key (Some (FileList_of three_files)).

(** A selection announced with two files whose iteration throws after the
    first. *)
Definition broken_inputs : Inputs :=
  mkInputs sample_url sample_key
    (Some (mkFileList 2
             (IterYield (mkFile "a.md" (inl "alpha"))
                (IterThrow (mkError "iterator failed"))))).

(** A service that confirms every creation with the id 42. *)
Definition confirming : Env := always (created_with (JNumber forty_two) (id_body "42")).

(** ** Proof automation *)

(** Closes a goal that asks for the events a symbolic run has added. *)
Ltac ends_with_events :=
  first [ eexists [_; _], _; split; [reflexivity|]
        | eexists [_; _; _], _; split; [reflexivity|]
        | eexists [_; _; _; _], _; split; [reflexivity|]
        | eexists [_; _; _; _; _], _; split; [reflexivity|]
        | eexists [_; _; _; _; _; _], _; split; [reflexivity|] ];
  simpl; auto 10.

(** ** Further readings of the model *)

(** Every character is white space. *)
Fixpoint all_space (s : string) : bool :=
  match s with
  | EmptyString => true
  | String c rest => JSString.is_space c && all_space rest
  end.

(** The four spellings of the extension that the test accepts. *)
Definition md_extensions : list string := [".md"; ".mD"; ".Md"; ".MD"].

(** The [options] that [fetchKarakeep] hands to [fetch]. *)
Definition api_request (url method apiKey : string) (body : option Payload) : Request :=
  mkRequest url method
    [("Authorization", ("Bearer " ++ apiKey)%string);
     ("Content-Type", "application/json");
     ("Accept", "application/json")]
    body.

(** The message of the error thrown on a status outside 200-299. *)
Definition api_error_text (r : Response) : string :=
  let errorText :=
    ("API Error: " ++ JSString.ofNat (status r) ++ " " ++ statusText r)%string in
  match text r with
  | Ok errorBody => (errorText ++ " - " ++ JSString.substring0 200 errorBody)%string
  | Throw _ => errorText
  end.

(** How [fetchKarakeep] ends for each settlement of its network call. *)
Definition fetch_result (o : FetchOutcome) : Result JSValue :=
  match o with
  | Rejected e => Throw e
  | Resolved r =>
      if negb (ok r) then Throw (mkError (api_error_text r))
      else if no_content r then Ok JNull
      else json r
  end.

(** The log lines [fetchKarakeep] writes after its network call, latest
    first. *)
Definition fetch_log (method url : string) (o : FetchOutcome) : list Event :=
  match o with
  | Rejected e => [EvLog (MsgFetchError method url (message e)) true]
  | Resolved r =>
      if negb (ok r) then
        [EvLog (MsgFetchError method url (api_error_text r)) true;
         EvLog (MsgApiResponseError method url (status r)) true]
      else if no_content r then
        [EvLog (MsgApiNoContent method url (status r)) false]
      else
        match json r with
        | Ok _ => [EvLog (MsgApiOk method url (status r)) false]
        | Throw e => [EvLog (MsgFetchError method url (message e)) true]
        end
  end.

(** Log lines and network calls. *)
Definition log_or_fetch (e : Event) : bool :=
  match e with
  | EvLog _ _ => true
  | EvFetch _ => true
  | _ => false
  end.

(** The pauses of a run, latest first. *)
Fixpoint sleeps_of (evs : list Event) : list nat :=
  match evs with
  | [] => []
  | EvSleep ms :: rest => ms :: sleeps_of rest
  | _ :: rest => sleeps_of rest
  end.

(** The events on the page controls: clearing the log and switching the
    start button. *)
Definition is_control (e : Event) : bool :=
  match e with
  | EvClearLog => true
  | EvButtonDisabled _ => true
  | _ => false
  end.

(** The message of the error that [readFileContent] rejects with. *)
Definition read_error_text (fileName : string) (code : nat) : string :=
  ("File " ++ JSString.dquote ++ fileName ++ JSString.dquote
   ++ " could not be read! Code: " ++ JSString.ofNat code)%string.

(** The last line a create call writes: its verdict. *)
Definition verdict_line (title : string) (o : FetchOutcome) (e : Event) : Prop :=
  match fetch_result o with
  | Throw err => e = EvLog (MsgCreateError "CREATE" title (message err)) true
  | Ok data =>
      if confirms o
      then exists id, e = EvLog (MsgCreated "CREATE" id title) false
      else e = EvLog (MsgNoId title data) true
           \/ exists err, e = EvLog (MsgCreateError "CREATE" title (message err)) true
  end.

(** A 204 response, whose body is not JSON, and a service that cannot be
    reached. *)
Definition no_content_response : Response :=
  mkResponse 204 "No Content" None (Ok EmptyString)
    (Throw (mkError "Unexpected end of JSON input")).

Definition offline : Env := mkEnv (fun _ _ => Rejected (mkError "Failed to fetch")).

(** A selection of one Markdown file whose extension is written in capitals. *)
Definition upper_case_inputs : Inputs :=
  mkInputs sample_url sample_key
    (Some (FileList_of [mkFile "c.MD" (inl "gamma")])).

(** * Properties *)

(** ** Strings *)

Section StringFacts.

Lemma string_length_app (a b : string) :
  String.length (a ++ b)%string = String.length a + String.length b.
Proof. induction a as [|c a IH]; simpl; [reflexivity | now rewrite IH]. Qed.

Lemma length_substring0 (n : nat) (s : string) :
  String.length (JSString.substring0 n s) = Nat.min n (String.length s).
Proof.
  revert s; induction n as [|n IH]; intros [|c s]; simpl; auto.
Qed.

Lemma substring_whole (x : string) :
  String.substring 0 (String.length x) x = x.
Proof. induction x as [|c x IH]; simpl; [reflexivity | now rewrite IH]. Qed.

Lemma substring_skip (p x : string) :
  String.substring (String.length p) (String.length x) (p ++ x)%string = x.
Proof.
  induction p as [|c p IH]; simpl; [apply substring_whole | exact IH].
Qed.

Lemma endsWith_app (p x : string) : JSString.endsWith (p ++ x)%string x = true.
Proof.
  unfold JSString.endsWith. rewrite string_length_app.
  replace (String.length p + String.length x - String.length x)
    with (String.length p) by lia.
  rewrite substring_skip, String.eqb_refl.
  rewrite andb_true_r. apply Nat.leb_le. lia.
Qed.

Lemma app_assoc_s (a b c : string) : ((a ++ b) ++ c = a ++ (b ++ c))%string.
Proof. induction a as [|x a IH]; simpl; [reflexivity | now rewrite IH]. Qed.

End StringFacts.

(** ** Title truncation *)

Lemma truncateTitleTo_short (limit : nat) (title : string) :
  String.length title <= limit -> truncateTitleTo limit title = title.
Proof.
  intros H. unfold truncateTitleTo, JSString.length.
  destruct (Nat.ltb_spec limit (String.length title)); [lia | reflexivity].
Qed.

Lemma truncateTitleTo_long (limit : nat) (title : string) :
  limit < String.length title ->
  truncateTitleTo limit title =
    if 3 <=? limit then (JSString.substring0 (limit - 3) title ++ "...")%string
    else JSString.substring0 limit title.
Proof.
  intros H. unfold truncateTitleTo, JSString.length.
  destruct (Nat.ltb_spec limit (String.length title)); [reflexivity | lia].
Qed.

Lemma truncateTitleTo_length (limit : nat) (title : string) :
  limit < String.length title ->
  String.length (truncateTitleTo limit title) = limit.
Proof.
  intros H. rewrite truncateTitleTo_long by assumption.
  destruct (Nat.leb_spec 3 limit).
  - rewrite string_length_app, length_substring0. simpl. lia.
  - rewrite length_substring0. lia.
Qed.

(** C3. A title longer than 255 characters is cut to exactly 255 characters,
    the last three being the ellipsis ["..."] after the first 252 characters
    of the title; a title of at most 255 characters is returned unchanged;
    the result never exceeds 255 characters.  For the body of the function
    at an arbitrary limit: with a limit of at least 3 the cut title has the
    length of the limit and ends with the ellipsis, below 3 it is the plain
    prefix of that length. *)
Theorem truncateTitle_spec (title : string) :
  (255 < JSString.length title ->
     JSString.length (truncateTitle title) = 255
     /\ truncateTitle title = (JSString.substring0 252 title ++ "...")%string
     /\ JSString.endsWith (truncateTitle title) "..." = true)
  /\ (JSString.length title <= 255 -> truncateTitle title = title)
  /\ JSString.length (truncateTitle title) <= 255
  /\ (forall limit, limit < JSString.length title ->
        JSString.length (truncateTitleTo limit title) = limit
        /\ (3 <= limit ->
              truncateTitleTo limit title
                = (JSString.substring0 (limit - 3) title ++ "...")%string
              /\ JSString.endsWith (truncateTitleTo limit title) "..." = true)
        /\ (limit < 3 ->
              truncateTitleTo limit title = JSString.substring0 limit title)).
Proof.
  unfold truncateTitle, MAX_KARAKEEP_TITLE_LENGTH, JSString.length.
  assert (G : forall limit, limit < String.length title ->
        String.length (truncateTitleTo limit title) = limit
        /\ (3 <= limit ->
              truncateTitleTo limit title
                = (JSString.substring0 (limit - 3) title ++ "...")%string
              /\ JSString.endsWith (truncateTitleTo limit title) "..." = true)
        /\ (limit < 3 ->
              truncateTitleTo limit title = JSString.substring0 limit title)).
  { intros limit H. split; [now apply truncateTitleTo_length|].
    rewrite truncateTitleTo_long by assumption.
    split; intros L.
    - destruct (Nat.leb_spec 3 limit); [|lia].
      split; [reflexivity | apply endsWith_app].
    - destruct (Nat.leb_spec 3 limit); [lia | reflexivity]. }
  repeat split.
  - now apply truncateTitleTo_length.
  - destruct (G 255 H) as (_ & K & _). apply K. lia.
  - destruct (G 255 H) as (_ & K & _). apply K. lia.
  - apply truncateTitleTo_short.
  - destruct (Nat.le_gt_cases (String.length title) 255) as [L|L].
    + now rewrite truncateTitleTo_short.
    + rewrite truncateTitleTo_length; [lia | assumption].
  - now apply G.
  - now apply G.
  - now apply G.
  - now apply G.
Qed.

Lemma truncateTitle_spec_witness :
  255 < JSString.length long_title
  /\ JSString.length (truncateTitle long_title) = 255
  /\ JSString.endsWith (truncateTitle long_title) "..." = true
  /\ truncateTitle "notes" = "notes"
  /\ truncateTitleTo 2 long_title = "xx".
Proof.
  assert (L : 255 < JSString.length long_title) by (vm_compute; lia).
  assert (L2 : 2 < JSString.length long_title) by (vm_compute; lia).
  pose proof (truncateTitle_spec long_title) as (A & _ & _ & D).
  pose proof (truncateTitle_spec "notes") as (_ & B & _).
  split; [exact L|].
  split; [exact (proj1 (A L))|].
  split; [exact (proj2 (proj2 (A L)))|].
  split; [apply B; vm_compute; lia|].
  destruct (D 2 L2) as (_ & _ & D3).
  rewrite D3 by lia. reflexivity.
Defined.

(** ** Title derivation *)

Section TitleDerivation.

Lemma ext_tail_cons (c : ascii) (s : string) :
  ext_tail (String c s) = true -> ext_char c = true.
Proof.
  simpl. destruct s; [auto|]. intros H. now apply andb_true_iff in H.
Qed.

(** A tail that holds a dot is not an extension. *)
Lemma ext_tail_with_dot (a e : string) :
  ext_tail (a ++ String "." e)%string = false.
Proof.
  induction a as [|c a IH].
  - simpl. destruct e; reflexivity.
  - change ((String c a ++ String "." e)%string)
      with (String c (a ++ String "." e)%string).
    remember (a ++ String "." e)%string as t eqn:E.
    simpl. destruct t as [|d t].
    + destruct a; discriminate E.
    + rewrite IH. apply andb_false_r.
Qed.

Lemma ext_tail_has_dot (s : string) : ext_tail s = true -> has_dot s = false.
Proof.
  induction s as [|c s IH]; [discriminate|].
  intros H. pose proof (ext_tail_cons _ _ H) as C.
  unfold ext_char in C. apply andb_true_iff in C as [_ C].
  simpl. apply negb_true_iff in C. rewrite C. simpl.
  destruct s as [|d s]; [reflexivity|].
  apply IH. simpl in H. apply andb_true_iff in H. apply H.
Qed.

Lemma title_of_match (p e : string) :
  ext_tail e = true -> getFileNameWithoutExtension (p ++ String "." e)%string = p.
Proof.
  intros H. induction p as [|c p IH]; simpl.
  - now rewrite H.
  - rewrite ext_tail_with_dot, andb_false_r. now rewrite IH.
Qed.

Lemma title_of_no_match (s : string) :
  (forall p e, s = (p ++ String "." e)%string -> ext_tail e = false) ->
  getFileNameWithoutExtension s = s.
Proof.
  induction s as [|c s IH]; intros H; simpl; [reflexivity|].
  destruct (Ascii.eqb c "." && ext_tail s) eqn:E.
  - apply andb_true_iff in E as [E1 E2]. apply Ascii.eqb_eq in E1. subst c.
    now rewrite (H EmptyString s eq_refl) in E2.
  - f_equal. apply IH. intros p e ->. apply (H (String c p) e). reflexivity.
Qed.

Lemma no_dot_no_split (s p e : string) :
  has_dot s = false -> s <> (p ++ String "." e)%string.
Proof.
  revert s; induction p as [|c p IH]; intros s H ->; simpl in H.
  - discriminate.
  - apply orb_false_iff in H as [_ H]. now apply (IH _ H).
Qed.

Lemma strip_of_match (p e : string) :
  has_dot e = false -> strip_from_final_dot (p ++ String "." e)%string = p.
Proof.
  intros H. induction p as [|c p IH]; simpl.
  - now rewrite H.
  - assert (D : has_dot (p ++ String "." e)%string = true).
    { clear IH. induction p as [|d p IHp]; simpl; [reflexivity|].
      rewrite IHp. apply orb_true_r. }
    rewrite D, andb_false_r. now rewrite IH.
Qed.

(** Cutting a string at a position inside it. *)
Lemma cut_at (k : nat) (t : string) :
  k <= String.length t ->
  t = (JSString.substring0 k t ++ String.substring k (String.length t - k) t)%string.
Proof.
  revert t; induction k as [|k IH]; intros t H.
  - simpl. rewrite Nat.sub_0_r. now rewrite substring_whole.
  - destruct t as [|c t]; simpl in *; [lia|].
    f_equal. apply IH. lia.
Qed.

Lemma endsWith_split (t x : string) :
  JSString.endsWith t x = true -> exists p, t = (p ++ x)%string.
Proof.
  unfold JSString.endsWith. intros H.
  apply andb_true_iff in H as [L E].
  apply Nat.leb_le in L. apply String.eqb_eq in E.
  exists (JSString.substring0 (String.length t - String.length x) t).
  assert (K : String.length t - String.length x <= String.length t) by lia.
  pose proof (cut_at _ t K) as C.
  replace (String.length t - (String.length t - String.length x))
    with (String.length x) in C by lia.
  now rewrite E in C.
Qed.

Lemma toLowerCase_split (a b s : string) :
  JSString.toLowerCase s = (a ++ b)%string ->
  exists sa sb, s = (sa ++ sb)%string
                /\ JSString.toLowerCase sa = a /\ JSString.toLowerCase sb = b.
Proof.
  revert s; induction a as [|c a IH]; intros s H.
  - exists EmptyString, s. auto.
  - destruct s as [|d s]; [discriminate|]. simpl in H.
    injection H as Hc Hs.
    destruct (IH _ Hs) as (sa & sb & -> & Ha & Hb).
    exists (String d sa), sb. simpl. now rewrite Hc, Ha.
Qed.

Lemma lower_char_dot (c : ascii) : JSString.lower_char c = "."%char -> c = "."%char.
Proof.
  destruct c as [[] [] [] [] [] [] [] []]; vm_compute; intros H;
    solve [reflexivity | discriminate H].
Qed.

Lemma lower_char_letter (c l : ascii) :
  JSString.lower_char c = l -> ext_char l = true -> ext_char c = true.
Proof.
  intros <-.
  destruct c as [[] [] [] [] [] [] [] []]; vm_compute; intros H;
    solve [reflexivity | discriminate H].
Qed.

(** A name accepted by the extension test ends with a dot and two
    characters that the pattern accepts. *)
Lemma md_name_shape (fileName : string) :
  is_md fileName = true ->
  exists p c2 c3,
    fileName = (p ++ String "." (String c2 (String c3 EmptyString)))%string
    /\ ext_tail (String c2 (String c3 EmptyString)) = true.
Proof.
  unfold is_md. intros H.
  destruct (endsWith_split _ _ H) as (p' & E).
  destruct (toLowerCase_split _ _ _ E) as (p & x & -> & _ & Hx).
  destruct x as [|c1 [|c2 [|c3 [|c4 x]]]]; try discriminate Hx.
  simpl in Hx. injection Hx as H1 H2 H3.
  apply lower_char_dot in H1. subst c1.
  exists p, c2, c3. split; [reflexivity|].
  simpl. rewrite (lower_char_letter _ _ H2 eq_refl).
  now rewrite (lower_char_letter _ _ H3 eq_refl).
Qed.

Lemma md_title (fileName : string) :
  is_md fileName = true ->
  exists p x, fileName = (p ++ x)%string /\ String.length x = 3
              /\ getFileNameWithoutExtension fileName = p.
Proof.
  intros H. destruct (md_name_shape _ H) as (p & c2 & c3 & -> & T).
  exists p, (String "." (String c2 (String c3 EmptyString))).
  repeat split. now apply title_of_match.
Qed.

End TitleDerivation.

(** C9, as stated, at the name ["notes."]: the name has a final dot, removing
    everything from that dot on gives ["notes"], and the script keeps the
    name as it is. *)
Lemma title_of_trailing_dot :
  has_dot "notes." = true
  /\ strip_from_final_dot "notes." = "notes"
  /\ getFileNameWithoutExtension "notes." = "notes."
  /\ getFileNameWithoutExtension "notes." <> strip_from_final_dot "notes.".
Proof. repeat split. discriminate. Qed.

(** C9, amended.  The final dot and what follows it are removed when at
    least one character follows that dot and none of them is a slash; the
    result is then what removing everything from the final dot on gives.  In
    every other case the name is unchanged, in particular when it has no
    dot.  Every name that passes the [.md] test loses exactly its last three
    characters.  ["notes.md"], ["a.b.md"] and ["noext"] give ["notes"],
    ["a.b"] and ["noext"]. *)
Theorem getFileNameWithoutExtension_spec :
  (forall p e, ext_tail e = true ->
      getFileNameWithoutExtension (p ++ String "." e)%string = p
      /\ strip_from_final_dot (p ++ String "." e)%string = p)
  /\ (forall s, (forall p e, s = (p ++ String "." e)%string -> ext_tail e = false) ->
      getFileNameWithoutExtension s = s)
  /\ (forall s, has_dot s = false ->
      getFileNameWithoutExtension s = s /\ strip_from_final_dot s = s)
  /\ (forall s, is_md s = true ->
      exists p x, s = (p ++ x)%string /\ String.length x = 3
                  /\ getFileNameWithoutExtension s = p)
  /\ getFileNameWithoutExtension "notes.md" = "notes"
  /\ getFileNameWithoutExtension "a.b.md" = "a.b"
  /\ getFileNameWithoutExtension "noext" = "noext".
Proof.
  split; [|split; [|split; [|split]]].
  - intros p e H. split; [now apply title_of_match|].
    apply strip_of_match. now apply ext_tail_has_dot.
  - apply title_of_no_match.
  - intros s H. split.
    + apply title_of_no_match. intros p e E.
      now destruct (no_dot_no_split s p e H).
    + induction s as [|c s IH]; simpl in *; [reflexivity|].
      apply orb_false_iff in H as [H1 H2].
      rewrite H1. simpl. now rewrite IH.
  - apply md_title.
  - repeat split.
Qed.

Lemma getFileNameWithoutExtension_spec_witness :
  getFileNameWithoutExtension "my.notes.txt" = "my.notes"
  /\ getFileNameWithoutExtension "archive.tar/" = "archive.tar/"
  /\ getFileNameWithoutExtension "README" = "README"
  /\ exists p x, "Plan.MD" = (p ++ x)%string /\ String.length x = 3
                 /\ getFileNameWithoutExtension "Plan.MD" = p.
Proof.
  pose proof getFileNameWithoutExtension_spec as (A & B & C & D & _).
  split; [exact (proj1 (A "my.notes" "txt" eq_refl))|].
  split.
  { apply B. intros p e E.
    destruct e as [|c e]; [reflexivity|].
    assert (L : String.length "archive.tar/" = String.length (p ++ String "." (String c e))%string)
      by now rewrite <- E.
    rewrite string_length_app in L. simpl in L.
    do 12 (destruct p as [|? p]; [now inversion E|]).
    simpl in L. lia. }
  split; [exact (proj1 (C "README" eq_refl))|].
  apply D. reflexivity.
Defined.

(** ** The create call *)

Section CreateCall.

Variable env : Env.

Lemma requests_of_app (a b : list Event) :
  requests_of (a ++ b) = requests_of a ++ requests_of b.
Proof.
  induction a as [|e a IH]; simpl; [reflexivity|].
  destruct e; simpl; now rewrite ?IH.
Qed.

Lemma reads_of_app (a b : list Event) :
  reads_of (a ++ b) = reads_of a ++ reads_of b.
Proof.
  induction a as [|e a IH]; simpl; [reflexivity|].
  destruct e; simpl; now rewrite ?IH.
Qed.

(** The whole behaviour of one create call: it ends normally with
    [confirms] of the settlement of its single network call, adds events in
    front of those of the state and leaves the counters alone; when it
    answers [false] its last event is an error entry of the log. *)
Lemma createRootItemInKarakeep_run (apiUrl apiKey title textContent : string) (st : State) :
  let req := bookmark_request apiUrl apiKey title textContent in
  let o := fetch env (List.length (requests_of (events st))) req in
  exists evs last,
    createRootItemInKarakeep env apiUrl apiKey title textContent st
      = (Ok (confirms o),
         mkState (last :: evs ++ events st) (filesProcessedCount st) (filesSyncedSuccessfully st))
    /\ requests_of (last :: evs) = [req]
    /\ reads_of (last :: evs) = []
    /\ file_errors_of (last :: evs) = []
    /\ skipped_of (last :: evs) = []
    /\ (confirms o = false -> reports_failure last = true).
Proof.
  intros req o. destruct st as [evs0 pc sc].
  cbv beta iota zeta delta [createRootItemInKarakeep fetchKarakeep try_catch bind do_fetch
    logMessage emit get ret throw lift events filesProcessedCount filesSyncedSuccessfully].
  change (fetch env _ _) with o.
  destruct o as [e | r] eqn:Eo.
  - ends_with_events.
  - unfold confirms.
    destruct (ok r) eqn:Eok; cbn [negb andb].
    + fold (no_content r). destruct (no_content r) eqn:Enc; cbn [negb andb].
      * ends_with_events.
      * destruct (json r) as [data | e] eqn:Ej; [|ends_with_events].
        unfold usable_id.
        destruct (get_id data) as [id|] eqn:Eid; [|ends_with_events].
        destruct (truthy (Some id)) eqn:Et; cbn [negb andb]; [|ends_with_events].
        destruct (js_String id) as [t | e] eqn:Es; [|ends_with_events].
        destruct (Text_isEmpty t) eqn:Ee; cbn [negb]; ends_with_events.
    + destruct (text r) as [body | e] eqn:Et; ends_with_events.
Qed.

End CreateCall.

(** ** The loop *)

Section RunFacts.

Variable env : Env.

Lemma file_errors_of_app (a b : list Event) :
  file_errors_of (a ++ b) = file_errors_of a ++ file_errors_of b.
Proof.
  induction a as [|e a IH]; simpl; [reflexivity|].
  destruct e as [|[] []| | | |]; simpl; now rewrite ?IH.
Qed.

Lemma skipped_of_app (a b : list Event) :
  skipped_of (a ++ b) = skipped_of a ++ skipped_of b.
Proof.
  induction a as [|e a IH]; simpl; [reflexivity|].
  destruct e as [|[] []| | | |]; simpl; now rewrite ?IH.
Qed.

(** One iteration: the counter of processed files goes up by one whatever
    the file is; the events added in front are described through their
    projections. *)
Lemma processFile_run (apiUrl apiKey : string) (totalFiles : nat) (f : File) (st : State) :
  exists evs,
    processFile env apiUrl apiKey totalFiles f st
      = (Ok tt,
         mkState (evs ++ events st)
           (filesProcessedCount st + 1)
           (filesSyncedSuccessfully st
            + succeeded_from env apiUrl apiKey
                (List.length (requests_of (events st))) [f]))
    /\ requests_of evs = rev (expected_requests apiUrl apiKey [f])
    /\ reads_of evs = (if md_file f then [name f] else [])
    /\ file_errors_of evs = (if unreadable_md f then [name f] else [])
    /\ skipped_of evs = (if md_file f then [] else [name f])
    /\ (md_file f = false ->
        evs = [EvLog (MsgSkipping (name f)) true;
               EvLog (MsgProcessingFile (filesProcessedCount st + 1) totalFiles (name f)) false]).
Proof.
  destruct st as [evs0 pc sc].
  unfold md_file, unreadable_md, succeeded_from, expected_requests, request_for.
  cbv beta iota zeta delta [processFile try_catch bind readFileContent sleep setProcessed
    setSynced logMessage emit get ret throw events filesProcessedCount filesSyncedSuccessfully].
  destruct (is_md (name f)) eqn:Emd; cbn [negb andb].
  - destruct (content f) as [txt | code] eqn:Ec.
    + match goal with
      | |- context [createRootItemInKarakeep env ?a ?k ?t ?x ?s] =>
          destruct (createRootItemInKarakeep_run env a k t x s)
            as (evs & last & E & Rq & Rd & Fe & Sk & _)
      end.
      cbn [events filesProcessedCount filesSyncedSuccessfully requests_of] in E.
      rewrite E. clear E.
      destruct (confirms _).
      * exists ([EvSleep 100] ++ (last :: evs)
                ++ [EvLog (MsgReadContent (name f) (JSString.length txt)) false;
                    EvRead (name f);
                    EvLog (MsgProcessingFile (pc + 1) totalFiles (name f)) false]).
        rewrite !requests_of_app, !reads_of_app, !file_errors_of_app, !skipped_of_app.
        rewrite Rq, Rd, Fe, Sk. simpl. rewrite <- app_assoc. simpl.
        repeat split; try reflexivity; try discriminate.
        all: try (do 2 f_equal; lia).
      * exists ([EvSleep 100; EvLog (MsgImportFailed (name f)) true] ++ (last :: evs)
                ++ [EvLog (MsgReadContent (name f) (JSString.length txt)) false;
                    EvRead (name f);
                    EvLog (MsgProcessingFile (pc + 1) totalFiles (name f)) false]).
        rewrite !requests_of_app, !reads_of_app, !file_errors_of_app, !skipped_of_app.
        rewrite Rq, Rd, Fe, Sk. simpl. rewrite <- app_assoc. simpl.
        repeat split; try reflexivity; try discriminate.
        all: try (do 2 f_equal; lia).
    + rewrite Nat.add_0_r.
      eexists [_; _; _; _]. split; [reflexivity|].
      simpl. repeat split; try reflexivity; discriminate.
  - rewrite Nat.add_0_r.
    eexists [_; _]. split; [reflexivity|].
    simpl. repeat split; reflexivity.
Qed.

(** The loop over an iteration: it ends as the iteration does, after one
    [processFile] per yielded file. *)
Lemma processFiles_run (apiUrl apiKey : string) (totalFiles : nat) (it : FileIter) :
  forall st, exists evs,
    processFiles env apiUrl apiKey totalFiles it st
      = (match fault it with Some e => Throw e | None => Ok tt end,
         mkState (evs ++ events st)
           (filesProcessedCount st + List.length (yielded it))
           (filesSyncedSuccessfully st
            + succeeded_from env apiUrl apiKey
                (List.length (requests_of (events st))) (yielded it)))
    /\ requests_of evs = rev (expected_requests apiUrl apiKey (yielded it))
    /\ reads_of evs = rev (map name (filter md_file (yielded it)))
    /\ file_errors_of evs = rev (map name (filter unreadable_md (yielded it)))
    /\ skipped_of evs = rev (map name (filter (fun f => negb (md_file f)) (yielded it))).
Proof.
  induction it as [| f rest IH | e]; intros st.
  - exists []. destruct st; simpl. rewrite !Nat.add_0_r. auto.
  - destruct (processFile_run apiUrl apiKey totalFiles f st)
      as (evs1 & E1 & Rq1 & Rd1 & Fe1 & Sk1 & _).
    cbn [processFiles]. unfold bind at 1. rewrite E1.
    destruct (IH (mkState (evs1 ++ events st) (filesProcessedCount st + 1)
                    (filesSyncedSuccessfully st
                     + succeeded_from env apiUrl apiKey
                         (List.length (requests_of (events st))) [f])))
      as (evs2 & E2 & Rq2 & Rd2 & Fe2 & Sk2).
    rewrite E2. cbn [events filesProcessedCount filesSyncedSuccessfully].
    exists (evs2 ++ evs1).
    rewrite !requests_of_app, !reads_of_app, !file_errors_of_app, !skipped_of_app.
    rewrite Rq1, Rq2, Rd1, Rd2, Fe1, Fe2, Sk1, Sk2.
    cbn [yielded fault List.length filter map expected_requests succeeded_from].
    rewrite List.length_app.
    destruct (request_for apiUrl apiKey f) as [r|];
      destruct (md_file f); destruct (unreadable_md f);
      cbn [rev map List.length app Nat.add negb];
      rewrite ?app_nil_r, ?Nat.add_0_r, <- ?app_assoc;
      (split; [do 2 f_equal; lia | auto]).
  - exists []. destruct st; simpl. rewrite !Nat.add_0_r. auto.
Qed.

(** A run that fails the validation. *)
Lemma startImportProcess_rejected (inp : Inputs) (st : State) :
  invalid inp = true ->
  startImportProcess env inp st
    = (Ok tt,
       mkState (rejected_events ++ events st)
         (filesProcessedCount st) (filesSyncedSuccessfully st)).
Proof.
  intros H. unfold startImportProcess. rewrite H.
  destruct (markdownFiles inp); destruct st; reflexivity.
Qed.

(** A run that passes the validation. *)
Lemma startImportProcess_started (inp : Inputs) (st : State) :
  invalid inp = false ->
  exists files body,
    markdownFiles inp = Some files
    /\ startImportProcess env inp st
       = (Ok tt,
          mkState
            (summary_events (files_length files)
               (List.length (yielded (files_iter files)))
               (succeeded_from env (apiUrl_of inp) (apiKey_of inp)
                  (List.length (requests_of (events st)))
                  (yielded (files_iter files)))
             ++ halt_events (fault (files_iter files))
             ++ body
             ++ opening_events (apiUrl_of inp) (files_length files)
             ++ events st)
            (List.length (yielded (files_iter files)))
            (succeeded_from env (apiUrl_of inp) (apiKey_of inp)
               (List.length (requests_of (events st)))
               (yielded (files_iter files))))
    /\ requests_of body
       = rev (expected_requests (apiUrl_of inp) (apiKey_of inp) (yielded (files_iter files)))
    /\ reads_of body = rev (map name (filter md_file (yielded (files_iter files))))
    /\ file_errors_of body
       = rev (map name (filter unreadable_md (yielded (files_iter files))))
    /\ skipped_of body
       = rev (map name (filter (fun f => negb (md_file f)) (yielded (files_iter files)))).
Proof.
  intros H. unfold startImportProcess. rewrite H.
  destruct (markdownFiles inp) as [files|] eqn:Ef.
  2:{ unfold invalid in H. rewrite Ef in H.
      rewrite !orb_true_r in H. discriminate. }
  destruct st as [evs0 pc sc].
  pose proof (processFiles_run (apiUrl_of inp) (apiKey_of inp) (files_length files)
                (files_iter files)
                (mkState (opening_events (apiUrl_of inp) (files_length files) ++ evs0) 0 0))
    as (body & E & Rq & Rd & Fe & Sk).
  exists files, body. split; [reflexivity|]. split; [|auto].
  cbn [events filesProcessedCount filesSyncedSuccessfully] in E.
  assert (N : requests_of (opening_events (apiUrl_of inp) (files_length files) ++ evs0)
              = requests_of evs0).
  { unfold opening_events.
    destruct (JSString.endsWith (apiUrl_of inp) "/api/v1"); reflexivity. }
  rewrite N in E. clear N.
  cbv beta iota zeta delta [try_finally try_catch bind clearLog finalizeRun setProcessed
    setSynced logMessage emit get ret throw events filesProcessedCount
    filesSyncedSuccessfully].
  unfold opening_events in E |- *.
  destruct (JSString.endsWith (apiUrl_of inp) "/api/v1");
    cbn [negb app] in E |- *; rewrite E;
    destruct (fault (files_iter files)); reflexivity.
Qed.

End RunFacts.

(** ** Pure readings of a list of files *)

Lemma expected_requests_in (apiUrl apiKey : string) (files : list File) (f : File) (r : Request) :
  In f files -> request_for apiUrl apiKey f = Some r ->
  In r (expected_requests apiUrl apiKey files).
Proof.
  induction files as [|g files IH]; intros Hin Hr; [destruct Hin|].
  simpl. destruct Hin as [<- | Hin].
  - rewrite Hr. now left.
  - destruct (request_for apiUrl apiKey g); [right|]; now apply IH.
Qed.

Lemma request_for_md (apiUrl apiKey : string) (f : File) :
  md_file f = false -> request_for apiUrl apiKey f = None.
Proof. unfold md_file, request_for. now intros ->. Qed.

Lemma expected_requests_md (apiUrl apiKey : string) (files : list File) :
  expected_requests apiUrl apiKey (filter md_file files)
  = expected_requests apiUrl apiKey files.
Proof.
  induction files as [|f files IH]; simpl; [reflexivity|].
  destruct (md_file f) eqn:E; simpl.
  - now rewrite IH.
  - now rewrite (request_for_md _ _ _ E).
Qed.

Lemma succeeded_from_md (env : Env) (apiUrl apiKey : string) (files : list File) :
  forall calls,
    succeeded_from env apiUrl apiKey calls (filter md_file files)
    = succeeded_from env apiUrl apiKey calls files.
Proof.
  induction files as [|f files IH]; intros calls; simpl; [reflexivity|].
  destruct (md_file f) eqn:E; simpl.
  - destruct (request_for apiUrl apiKey f); now rewrite IH.
  - now rewrite (request_for_md _ _ _ E).
Qed.

Lemma succeeded_from_le (env : Env) (apiUrl apiKey : string) (files : list File) :
  forall calls,
    succeeded_from env apiUrl apiKey calls files
    <= List.length (expected_requests apiUrl apiKey files).
Proof.
  induction files as [|f files IH]; intros calls; simpl; [lia|].
  destruct (request_for apiUrl apiKey f); [|apply IH].
  specialize (IH (S calls)). simpl.
  destruct (confirms _); lia.
Qed.

Lemma yielded_of_list (files : list File) : yielded (iter_of_list files) = files.
Proof. induction files as [|f files IH]; simpl; [reflexivity | now rewrite IH]. Qed.

Lemma fault_of_list (files : list File) : fault (iter_of_list files) = None.
Proof. induction files as [|f files IH]; simpl; auto. Qed.

Lemma expected_requests_length (apiUrl apiKey : string) (files : list File) :
  List.length (expected_requests apiUrl apiKey files)
  <= List.length (filter md_file files).
Proof.
  induction files as [|f files IH]; simpl; [lia|].
  unfold request_for, md_file in *.
  destruct (is_md (name f)); [|exact IH].
  destruct (content f); simpl; lia.
Qed.

(** ** What a run that passes the validation leaves behind *)

Lemma started_run_observed (env : Env) (inp : Inputs) :
  invalid inp = false ->
  exists files earlier,
    markdownFiles inp = Some files
    /\ let sel := yielded (files_iter files) in
       let st' := snd (startImportProcess env inp initial) in
       fst (startImportProcess env inp initial) = Ok tt
       /\ filesProcessedCount st' = List.length sel
       /\ filesSyncedSuccessfully st'
          = succeeded_from env (apiUrl_of inp) (apiKey_of inp) 0 sel
       /\ events st'
          = summary_events (files_length files) (filesProcessedCount st')
              (filesSyncedSuccessfully st')
            ++ halt_events (fault (files_iter files)) ++ earlier
       /\ requests_of (events st')
          = rev (expected_requests (apiUrl_of inp) (apiKey_of inp) sel)
       /\ reads_of (events st') = rev (map name (filter md_file sel))
       /\ file_errors_of (events st') = rev (map name (filter unreadable_md sel))
       /\ skipped_of (events st')
          = rev (map name (filter (fun f => negb (md_file f)) sel)).
Proof.
  intros V.
  destruct (startImportProcess_started env inp initial V)
    as (files & body & Ef & E & Rq & Rd & Fe & Sk).
  exists files, (body ++ opening_events (apiUrl_of inp) (files_length files) ++ events initial).
  split; [exact Ef|].
  cbv zeta. rewrite E. cbn [fst snd events filesProcessedCount filesSyncedSuccessfully].
  change (List.length (requests_of (events initial))) with 0.
  repeat split.
  all: rewrite ?requests_of_app, ?reads_of_app, ?file_errors_of_app, ?skipped_of_app;
    rewrite ?Rq, ?Rd, ?Fe, ?Sk; unfold opening_events, halt_events;
    destruct (fault (files_iter files));
    destruct (JSString.endsWith (apiUrl_of inp) "/api/v1");
    simpl; now rewrite app_nil_r.
Qed.

(** ** The create call, claim by claim *)

(** C2, as stated, on two 201 responses with a JSON body that has an [id]:
    with the number 0 as [id] the call answers [false], and with the boolean
    [true], which is neither a string nor a number, it answers [true]. *)
Lemma create_with_id_zero_or_true :
  fst (createRootItemInKarakeep (always (created_with (JNumber zero) (id_body "0")))
         sample_url sample_key "notes" "text" initial) = Ok false
  /\ fst (createRootItemInKarakeep (always (created_with (JBool true) (id_body "true")))
            sample_url sample_key "notes" "text" initial) = Ok true.
Proof. split; reflexivity. Qed.

(** C2, amended.  The call answers [true] exactly when the response has a
    status from 200 to 299 other than 204, its [content-length] header is not
    ["0"], its body parses as JSON, and the parsed value has an [id] that is
    truthy and whose [String()] conversion succeeds with a non-empty text;
    in every other case it answers [false].  So a 204 response, a response
    with [content-length] 0 and a body without such an [id] give [false].
    On a response that meets the other conditions, a string [id] gives
    [true] exactly when it is not empty and a number [id] exactly when it is
    neither zero nor NaN. *)
Theorem createRootItemInKarakeep_true_iff
  (env : Env) (apiUrl apiKey title textContent : string) (st : State) :
  let o := fetch env (List.length (requests_of (events st)))
             (bookmark_request apiUrl apiKey title textContent) in
  let result := fst (createRootItemInKarakeep env apiUrl apiKey title textContent st) in
  (result = Ok true <->
     exists r data id t,
       o = Resolved r
       /\ 200 <= status r <= 299 /\ status r <> 204
       /\ contentLength r <> Some "0"
       /\ json r = Ok data
       /\ get_id data = Some id /\ truthy (Some id) = true
       /\ js_String id = Ok t /\ Text_isEmpty t = false)
  /\ (result <> Ok true -> result = Ok false)
  /\ (forall r, o = Resolved r ->
        status r = 204 \/ contentLength r = Some "0" -> result = Ok false)
  /\ (forall r data, o = Resolved r -> json r = Ok data ->
        usable_id data = false -> result = Ok false)
  /\ (forall r members s, o = Resolved r ->
        ok r = true -> no_content r = false ->
        json r = Ok (JObject members) ->
        getMember "id" members = Some (JString s) ->
        result = Ok (negb (String.eqb s EmptyString)))
  /\ (forall r members x, o = Resolved r ->
        ok r = true -> no_content r = false ->
        json r = Ok (JObject members) ->
        getMember "id" members = Some (JNumber x) ->
        result = Ok (match x with
                     | S754_zero _ => false
                     | S754_nan => false
                     | _ => true
                     end)).
Proof.
  intros o result.
  destruct (createRootItemInKarakeep_run env apiUrl apiKey title textContent st)
    as (evs & last & E & _).
  assert (R : result = Ok (confirms o)) by (unfold result; now rewrite E).
  clearbody result. clear E. subst result.
  split; [|split; [|split; [|split; [|split]]]].
  - split.
    + intros H. injection H as H. unfold confirms in H.
      destruct o as [e | r]; [discriminate|].
      apply andb_true_iff in H as [H Hj].
      apply andb_true_iff in H as [Hok Hnc].
      destruct (json r) as [data | e] eqn:Ej; [|discriminate].
      unfold usable_id in Hj.
      destruct (get_id data) as [id|] eqn:Eid; [|discriminate].
      apply andb_true_iff in Hj as [Ht Hs].
      destruct (js_String id) as [t | e] eqn:Es; [|discriminate].
      exists r, data, id, t.
      unfold ok in Hok. apply andb_true_iff in Hok as [L U].
      apply Nat.leb_le in L. apply Nat.leb_le in U.
      apply negb_true_iff in Hnc. unfold no_content in Hnc.
      apply orb_false_iff in Hnc as [N1 N2]. apply Nat.eqb_neq in N1.
      apply negb_true_iff in Hs.
      repeat split; auto.
      intros C. rewrite C in N2. discriminate.
    + intros (r & data & id & t & -> & [L U] & N & C & Ej & Eid & Ht & Es & Ee).
      unfold confirms, usable_id, ok, no_content.
      rewrite Ej, Eid, Ht, Es, Ee.
      apply Nat.leb_le in L. apply Nat.leb_le in U. apply Nat.eqb_neq in N.
      rewrite L, U, N. simpl.
      destruct (contentLength r) as [v|]; [|reflexivity].
      destruct (String.eqb_spec v "0"); [|reflexivity].
      subst v. now destruct C.
  - destruct (confirms o); [intros H; now destruct H | reflexivity].
  - intros r -> H. unfold confirms, no_content.
    destruct H as [H | H]; rewrite H; simpl;
      rewrite ?orb_true_r, ?andb_false_r; reflexivity.
  - intros r data -> Ej H. unfold confirms. rewrite Ej, H.
    now rewrite andb_false_r.
  - intros r members s -> Hok Hnc Ej Eid. unfold confirms, usable_id.
    rewrite Hok, Hnc, Ej. simpl. rewrite Eid. simpl.
    now destruct (String.eqb s EmptyString).
  - intros r members x -> Hok Hnc Ej Eid. unfold confirms, usable_id.
    rewrite Hok, Hnc, Ej. simpl. rewrite Eid.
    destruct x; reflexivity.
Qed.

Lemma createRootItemInKarakeep_true_iff_witness :
  fst (createRootItemInKarakeep (always (created_with (JNumber forty_two) (id_body "42")))
         sample_url sample_key "notes" "text" initial) = Ok true
  /\ fst (createRootItemInKarakeep (always (created_with (JString EmptyString) (id_body (JSString.dquote ++ JSString.dquote))))
            sample_url sample_key "notes" "text" initial) = Ok false.
Proof.
  split.
  - apply (proj1 (createRootItemInKarakeep_true_iff
                    (always (created_with (JNumber forty_two) (id_body "42")))
                    sample_url sample_key "notes" "text" initial)).
    exists (created_with (JNumber forty_two) (id_body "42")),
      (JObject [("id", JNumber forty_two)]), (JNumber forty_two), [PNumber forty_two].
    simpl. repeat split; try reflexivity; try lia; discriminate.
  - pose proof (createRootItemInKarakeep_true_iff
                  (always (created_with (JString EmptyString) (id_body (JSString.dquote ++ JSString.dquote))))
                  sample_url sample_key "notes" "text" initial)
      as (_ & _ & _ & _ & S & _).
    exact (S _ _ EmptyString eq_refl eq_refl eq_refl eq_refl eq_refl).
Defined.

(** C5. Whatever the title, the content, the state and the settlement of the
    network call, the create call ends normally with a boolean; the boolean
    is [false] when the fetch is rejected, when the status is outside
    200-299, when the body is not JSON, when the parsed body has no [id] and
    when the conversion of the [id] throws; a [false] answer comes with an
    error entry as the last line of the log. *)
Theorem createRootItemInKarakeep_never_throws
  (env : Env) (apiUrl apiKey title textContent : string) (st : State) :
  let o := fetch env (List.length (requests_of (events st)))
             (bookmark_request apiUrl apiKey title textContent) in
  exists b st',
    createRootItemInKarakeep env apiUrl apiKey title textContent st = (Ok b, st')
    /\ (forall e, o = Rejected e -> b = false)
    /\ (forall r, o = Resolved r -> status r < 200 \/ 299 < status r -> b = false)
    /\ (forall r e, o = Resolved r -> json r = Throw e -> b = false)
    /\ (forall r data, o = Resolved r -> json r = Ok data ->
          get_id data = None -> b = false)
    /\ (forall r data id e, o = Resolved r -> json r = Ok data ->
          get_id data = Some id -> js_String id = Throw e -> b = false)
    /\ (b = false ->
          exists line rest,
            events st' = line :: rest /\ reports_failure line = true).
Proof.
  intros o.
  destruct (createRootItemInKarakeep_run env apiUrl apiKey title textContent st)
    as (evs & last & E & _ & _ & _ & _ & F).
  fold o in E, F.
  exists (confirms o), (mkState (last :: evs ++ events st)
                          (filesProcessedCount st) (filesSyncedSuccessfully st)).
  split; [exact E|].
  split; [|split; [|split; [|split; [|split]]]].
  - intros e ->. reflexivity.
  - intros r -> H. unfold confirms, ok.
    destruct H as [H | H].
    + apply Nat.leb_gt in H. now rewrite H.
    + apply Nat.leb_gt in H. rewrite H. now rewrite andb_false_r.
  - intros r e -> H. unfold confirms. rewrite H. apply andb_false_r.
  - intros r data -> Ej H. unfold confirms, usable_id. rewrite Ej, H.
    apply andb_false_r.
  - intros r data id e -> Ej Eid H. unfold confirms, usable_id.
    rewrite Ej, Eid, H. now rewrite !andb_false_r.
  - intros H. exists last, (evs ++ events st). split; [reflexivity | now apply F].
Qed.

Lemma createRootItemInKarakeep_never_throws_witness :
  exists st',
    createRootItemInKarakeep (always internal_error)
      sample_url sample_key "notes" "text" initial = (Ok false, st').
Proof.
  destruct (createRootItemInKarakeep_never_throws (always internal_error)
              sample_url sample_key "notes" "text" initial)
    as (b & st' & E & _ & H & _).
  exists st'. rewrite E.
  rewrite (H internal_error eq_refl); [reflexivity|].
  right. simpl. lia.
Defined.

(** The shape of what is posted.  The create call makes exactly one network
    call: a POST to the base URL followed by [/bookmarks] whose body is the
    object with the seven fields [title] ([truncateTitle] of the title),
    [text] (the content as given), [type] = ["text"], [archived] = [false],
    [favourited] = [false], [note] = ["Imported from Markdown file: "]
    followed by the title and a lower-case [".md"], and [summary] = the empty
    string.  In a run that passes the validation the network calls are, in
    order, those of the selected files that pass the extension test and can
    be read, the title being the file name without its extension and the
    text the content of the file. *)
Theorem payload_of_each_import
  (env : Env) (apiUrl apiKey title textContent : string) (st : State) (inp : Inputs) :
  (let st' := snd (createRootItemInKarakeep env apiUrl apiKey title textContent st) in
   exists r,
     requests_of (events st') = r :: requests_of (events st)
     /\ req_url r = (apiUrl ++ "/bookmarks")%string
     /\ req_method r = "POST"
     /\ req_body r
        = Some {| p_title := truncateTitle title;
                  p_text := textContent;
                  p_type := "text";
                  p_archived := false;
                  p_favourited := false;
                  p_note := ("Imported from Markdown file: " ++ title ++ ".md")%string;
                  p_summary := EmptyString |})
  /\ (invalid inp = false ->
      exists files,
        markdownFiles inp = Some files
        /\ rev (requests_of (events (snd (startImportProcess env inp initial))))
           = expected_requests (apiUrl_of inp) (apiKey_of inp) (yielded (files_iter files))
        /\ forall f txt,
             In f (yielded (files_iter files)) ->
             is_md (name f) = true -> content f = inl txt ->
             exists r,
               In r (requests_of (events (snd (startImportProcess env inp initial))))
               /\ req_url r = (apiUrl_of inp ++ "/bookmarks")%string
               /\ req_method r = "POST"
               /\ req_body r
                  = Some {| p_title := truncateTitle (getFileNameWithoutExtension (name f));
                            p_text := txt;
                            p_type := "text";
                            p_archived := false;
                            p_favourited := false;
                            p_note := ("Imported from Markdown file: "
                                       ++ getFileNameWithoutExtension (name f)
                                       ++ ".md")%string;
                            p_summary := EmptyString |}).
Proof.
  split.
  - destruct (createRootItemInKarakeep_run env apiUrl apiKey title textContent st)
      as (evs & last & E & Rq & _).
    rewrite E. cbn [snd events].
    exists (bookmark_request apiUrl apiKey title textContent).
    change (last :: evs ++ events st) with ((last :: evs) ++ events st).
    rewrite requests_of_app, Rq. repeat split.
  - intros V.
    destruct (startImportProcess_started env inp initial V)
      as (files & body & Ef & E & Rq & _).
    exists files. split; [exact Ef|].
    rewrite E. cbn [snd events].
    assert (Q : requests_of
                  (summary_events (files_length files)
                     (List.length (yielded (files_iter files)))
                     (succeeded_from env (apiUrl_of inp) (apiKey_of inp)
                        (List.length (requests_of (events initial)))
                        (yielded (files_iter files)))
                   ++ halt_events (fault (files_iter files))
                   ++ body
                   ++ opening_events (apiUrl_of inp) (files_length files)
                   ++ events initial)
                = rev (expected_requests (apiUrl_of inp) (apiKey_of inp)
                         (yielded (files_iter files)))).
    { rewrite !requests_of_app, Rq. unfold opening_events, halt_events.
      destruct (fault (files_iter files));
        destruct (JSString.endsWith (apiUrl_of inp) "/api/v1");
        simpl; now rewrite app_nil_r. }
    rewrite Q. split; [apply rev_involutive|].
    intros f txt Hin Hmd Hc.
    exists (bookmark_request (apiUrl_of inp) (apiKey_of inp)
              (getFileNameWithoutExtension (name f)) txt).
    split; [|repeat split].
    apply in_rev. rewrite rev_involutive.
    apply expected_requests_in with (f := f); [exact Hin|].
    unfold request_for. now rewrite Hmd, Hc.
Qed.

Lemma payload_of_each_import_witness :
  rev (requests_of (events (snd (startImportProcess confirming three_inputs initial))))
  = [bookmark_request sample_url sample_key "a" "alpha";
     bookmark_request sample_url sample_key "c" "gamma"].
Proof.
  destruct (payload_of_each_import confirming sample_url sample_key "a" "alpha"
              initial three_inputs) as (_ & H).
  destruct (H eq_refl) as (files & Ef & E & _).
  injection Ef as <-. rewrite E. reflexivity.
Defined.

(** ** The run, claim by claim *)

(** C1, as stated, on a selection of one picture: the file does not pass the
    extension test, yet the run ends with a processed count of 1 and reports
    it in the summary. *)
Lemma skipped_file_is_counted :
  is_md "photo.png" = false
  /\ filesProcessedCount (snd (startImportProcess confirming picture_only initial)) = 1
  /\ In (EvLog (MsgAttempted 1) false)
       (events (snd (startImportProcess confirming picture_only initial))).
Proof.
  split; [reflexivity|]. split; [vm_compute; reflexivity|].
  vm_compute. tauto.
Qed.

(** C1, amended.  A file whose name does not end in [.md] (in any letter
    case) is counted in the processed count, as every file is; it is not
    read, no network call is made for it and it adds nothing to the
    succeeded count: the reads, the network calls and the succeeded count of
    a run are those of its [.md] files alone.  The file is skipped with one
    warning, logged as an error entry, right after the line that announces
    it. *)
Theorem non_md_file_is_skipped (env : Env) (inp : Inputs) :
  (forall apiUrl apiKey totalFiles f st,
      is_md (name f) = false ->
      processFile env apiUrl apiKey totalFiles f st
      = (Ok tt,
         mkState
           (EvLog (MsgSkipping (name f)) true
            :: EvLog (MsgProcessingFile (filesProcessedCount st + 1) totalFiles (name f)) false
            :: events st)
           (filesProcessedCount st + 1)
           (filesSyncedSuccessfully st)))
  /\ (invalid inp = false ->
      exists files,
        markdownFiles inp = Some files
        /\ let sel := yielded (files_iter files) in
           let st' := snd (startImportProcess env inp initial) in
           filesProcessedCount st' = List.length sel
           /\ filesSyncedSuccessfully st'
              = succeeded_from env (apiUrl_of inp) (apiKey_of inp) 0 (filter md_file sel)
           /\ filesSyncedSuccessfully st' <= List.length (filter md_file sel)
           /\ rev (requests_of (events st'))
              = expected_requests (apiUrl_of inp) (apiKey_of inp) (filter md_file sel)
           /\ rev (reads_of (events st')) = map name (filter md_file sel)
           /\ rev (skipped_of (events st'))
              = map name (filter (fun f => negb (md_file f)) sel)).
Proof.
  split.
  - intros apiUrl apiKey totalFiles f st H.
    destruct (processFile_run env apiUrl apiKey totalFiles f st)
      as (evs & E & _ & _ & _ & _ & S).
    rewrite E, (S H). simpl.
    rewrite (request_for_md _ _ _ H). now rewrite Nat.add_0_r.
  - intros V.
    destruct (started_run_observed env inp V)
      as (files & earlier & Ef & _ & P & S & _ & Rq & Rd & _ & Sk).
    exists files. split; [exact Ef|]. cbv zeta.
    rewrite P, S, Rq, Rd, Sk, !rev_involutive.
    rewrite succeeded_from_md, expected_requests_md.
    repeat split.
    etransitivity; [apply succeeded_from_le | apply expected_requests_length].
Qed.

Lemma non_md_file_is_skipped_witness :
  let st' := snd (startImportProcess confirming picture_only initial) in
  filesProcessedCount st' = 1
  /\ filesSyncedSuccessfully st' = 0
  /\ requests_of (events st') = []
  /\ reads_of (events st') = []
  /\ skipped_of (events st') = ["photo.png"].
Proof.
  destruct (non_md_file_is_skipped confirming picture_only) as (_ & H).
  destruct (H eq_refl) as (files & Ef & P & S & _ & Rq & Rd & Sk).
  injection Ef as <-. cbv zeta.
  rewrite P, S.
  apply (f_equal (@rev _)) in Rq, Rd, Sk. rewrite rev_involutive in Rq, Rd, Sk.
  rewrite Rq, Rd, Sk. repeat split.
Defined.

(** C6. Three [.md] files are selected; the first and the third can be read
    and the service confirms their creation, the second cannot be read.  The
    run ends normally with a processed count of 3 and a succeeded count of
    2; the log has exactly one read-error entry and it names the second
    file; all three files are handed to the reader, and the third file is
    still posted after the failure. *)
Theorem read_failure_is_skipped
  (env : Env) (url key : string) (f1 f2 f3 : File) (t1 t3 : string) (code : nat) :
  let inp := mkInputs url key (Some (FileList_of [f1; f2; f3])) in
  let r1 := bookmark_request (apiUrl_of inp) (apiKey_of inp)
              (getFileNameWithoutExtension (name f1)) t1 in
  let r3 := bookmark_request (apiUrl_of inp) (apiKey_of inp)
              (getFileNameWithoutExtension (name f3)) t3 in
  invalid inp = false ->
  is_md (name f1) = true -> is_md (name f2) = true -> is_md (name f3) = true ->
  content f1 = inl t1 -> content f2 = inr code -> content f3 = inl t3 ->
  confirms (fetch env 0 r1) = true ->
  confirms (fetch env 1 r3) = true ->
  let st' := snd (startImportProcess env inp initial) in
  fst (startImportProcess env inp initial) = Ok tt
  /\ filesProcessedCount st' = 3
  /\ filesSyncedSuccessfully st' = 2
  /\ file_errors_of (events st') = [name f2]
  /\ rev (reads_of (events st')) = [name f1; name f2; name f3]
  /\ rev (requests_of (events st')) = [r1; r3]
  /\ exists earlier, events st' = summary_events 3 3 2 ++ earlier.
Proof.
  intros inp r1 r3 V M1 M2 M3 C1 C2 C3 K1 K3 st'.
  destruct (started_run_observed env inp V)
    as (files & earlier & Ef & R & P & S & Ev & Rq & Rd & Fe & _).
  injection Ef as <-. cbv zeta in *. fold st' in P, S, Ev, Rq, Rd, Fe.
  cbn [files_iter files_length FileList_of] in *.
  rewrite yielded_of_list in *. rewrite fault_of_list in Ev.
  cbn [List.length] in *.
  assert (Q1 : request_for (apiUrl_of inp) (apiKey_of inp) f1 = Some r1)
    by (unfold request_for; now rewrite M1, C1).
  assert (Q2 : request_for (apiUrl_of inp) (apiKey_of inp) f2 = None)
    by (unfold request_for; now rewrite M2, C2).
  assert (Q3 : request_for (apiUrl_of inp) (apiKey_of inp) f3 = Some r3)
    by (unfold request_for; now rewrite M3, C3).
  cbn [succeeded_from expected_requests] in S, Rq.
  rewrite Q1, Q2, Q3 in S, Rq. rewrite K1, K3 in S.
  cbn [filter map] in Rd, Fe. unfold md_file, unreadable_md in Rd, Fe.
  rewrite M1, M2, M3 in Rd, Fe. rewrite C1, C2, C3 in Fe.
  cbn [andb map rev app] in Rd, Fe.
  split; [exact R|]. split; [exact P|]. split; [exact S|]. split; [exact Fe|].
  split; [now rewrite Rd|]. split; [now rewrite Rq|].
  exists earlier. rewrite Ev, P, S. reflexivity.
Qed.

Lemma read_failure_is_skipped_witness :
  let st' := snd (startImportProcess confirming three_inputs initial) in
  filesProcessedCount st' = 3
  /\ filesSyncedSuccessfully st' = 2
  /\ file_errors_of (events st') = ["b.md"].
Proof.
  pose proof (read_failure_is_skipped confirming sample_url sample_key
                (mkFile "a.md" (inl "alpha")) (mkFile "b.md" (inr 4))
                (mkFile "c.MD" (inl "gamma")) "alpha" "gamma" 4
                eq_refl eq_refl eq_refl eq_refl eq_refl eq_refl eq_refl eq_refl eq_refl)
    as (_ & P & S & Fe & _).
  exact (conj P (conj S Fe)).
Defined.

(** C7. When the API URL or the API key is empty (as typed, or once trimmed
    and stripped of its trailing slash), when there is no file list or when
    the list is empty, the run ends at once: it logs the validation error as
    an error entry and re-enables the button; no file is read, no network
    call is made, no summary is written and both counters are still zero. *)
Theorem validation_failure_stops_the_run (env : Env) (inp : Inputs) :
  karakeepUrl inp = EmptyString \/ apiUrl_of inp = EmptyString
  \/ karakeepApiKey inp = EmptyString \/ apiKey_of inp = EmptyString
  \/ markdownFiles inp = None
  \/ (exists files, markdownFiles inp = Some files /\ files_length files = 0) ->
  let st' := snd (startImportProcess env inp initial) in
  fst (startImportProcess env inp initial) = Ok tt
  /\ trace st'
     = [EvClearLog; EvLog MsgLogCleared false; EvButtonDisabled true;
        EvLog MsgStarting false; EvLog MsgValidationError true;
        EvButtonDisabled false]
  /\ reads_of (events st') = []
  /\ requests_of (events st') = []
  /\ filesProcessedCount st' = 0
  /\ filesSyncedSuccessfully st' = 0.
Proof.
  intros H.
  assert (V : invalid inp = true).
  { unfold invalid.
    destruct H as [H | [H | [H | [H | [H | (files & H & L)]]]]].
    - unfold apiUrl_of. rewrite H. reflexivity.
    - rewrite H. reflexivity.
    - unfold apiKey_of. rewrite H. apply orb_true_iff. left. apply orb_true_r.
    - rewrite H. apply orb_true_iff. left. apply orb_true_r.
    - rewrite H. apply orb_true_r.
    - rewrite H, L. apply orb_true_r. }
  cbv zeta. rewrite (startImportProcess_rejected env inp initial V).
  repeat split.
Qed.

Lemma validation_failure_stops_the_run_witness :
  trace (snd (startImportProcess confirming
                (mkInputs " / " sample_key (Some (FileList_of three_files))) initial))
  = [EvClearLog; EvLog MsgLogCleared false; EvButtonDisabled true;
     EvLog MsgStarting false; EvLog MsgValidationError true;
     EvButtonDisabled false]
  /\ requests_of (events (snd (startImportProcess confirming
                (mkInputs sample_url sample_key (Some (FileList_of []))) initial))) = [].
Proof.
  split.
  - refine (proj1 (proj2 (validation_failure_stops_the_run confirming
                            (mkInputs " / " sample_key (Some (FileList_of three_files))) _))).
    right. left. reflexivity.
  - refine (proj1 (proj2 (proj2 (proj2 (validation_failure_stops_the_run confirming
                            (mkInputs sample_url sample_key (Some (FileList_of []))) _))))).
    do 5 right. exists (FileList_of []). split; reflexivity.
Defined.

(** C8. A run that passes the validation always ends normally with the
    summary as its last log lines, followed by the re-enabling of the
    button: the number of selected files, the processed count and the
    succeeded count, which are the final values of the two counters.  This
    holds when the iteration over the files throws: the loop stops, the two
    lines of the fatal error are logged, the summary follows, and the
    processed count is the number of files the iteration had yielded. *)
Theorem summary_is_always_emitted (env : Env) (inp : Inputs) (st : State) :
  invalid inp = false ->
  exists files earlier,
    markdownFiles inp = Some files
    /\ let st' := snd (startImportProcess env inp st) in
       fst (startImportProcess env inp st) = Ok tt
       /\ events st'
          = summary_events (files_length files) (filesProcessedCount st')
              (filesSyncedSuccessfully st')
            ++ halt_events (fault (files_iter files)) ++ earlier ++ events st
       /\ filesProcessedCount st' = List.length (yielded (files_iter files))
       /\ filesSyncedSuccessfully st'
          = succeeded_from env (apiUrl_of inp) (apiKey_of inp)
              (List.length (requests_of (events st))) (yielded (files_iter files))
       /\ (forall e, fault (files_iter files) = Some e ->
             events st'
             = summary_events (files_length files) (filesProcessedCount st')
                 (filesSyncedSuccessfully st')
               ++ EvLog MsgHalted true :: EvLog (MsgFatal (message e)) true
               :: earlier ++ events st).
Proof.
  intros V.
  destruct (startImportProcess_started env inp st V)
    as (files & body & Ef & E & _).
  exists files, (body ++ opening_events (apiUrl_of inp) (files_length files)).
  split; [exact Ef|]. cbv zeta. rewrite E.
  cbn [fst snd events filesProcessedCount filesSyncedSuccessfully].
  rewrite <- !app_assoc.
  repeat split. intros e ->. reflexivity.
Qed.

Lemma summary_is_always_emitted_witness :
  exists earlier,
    events (snd (startImportProcess confirming broken_inputs initial))
    = summary_events 2 1 1
      ++ EvLog MsgHalted true :: EvLog (MsgFatal "iterator failed") true :: earlier.
Proof.
  destruct (summary_is_always_emitted confirming broken_inputs initial eq_refl)
    as (files & earlier & Ef & _ & _ & P & S & H).
  injection Ef as <-.
  exists (earlier ++ events initial).
  rewrite (H (mkError "iterator failed") eq_refl), P, S. reflexivity.
Defined.

(** C10. A file named exactly [.md] passes the extension test and its title
    is the empty string; when its content can be read, a run that passes the
    validation and reaches the file posts a bookmark whose payload has the
    empty string as title. *)
Theorem dot_md_file_has_empty_title (env : Env) (inp : Inputs) :
  is_md ".md" = true
  /\ getFileNameWithoutExtension ".md" = EmptyString
  /\ (invalid inp = false ->
      exists files,
        markdownFiles inp = Some files
        /\ forall f txt,
             In f (yielded (files_iter files)) ->
             name f = ".md" -> content f = inl txt ->
             exists r payload,
               In r (requests_of (events (snd (startImportProcess env inp initial))))
               /\ req_method r = "POST"
               /\ req_url r = (apiUrl_of inp ++ "/bookmarks")%string
               /\ req_body r = Some payload
               /\ p_title payload = EmptyString
               /\ p_text payload = txt).
Proof.
  split; [reflexivity|]. split; [reflexivity|].
  intros V.
  destruct (started_run_observed env inp V)
    as (files & earlier & Ef & _ & _ & _ & _ & Rq & _).
  exists files. split; [exact Ef|].
  intros f txt Hin Hn Hc.
  exists (bookmark_request (apiUrl_of inp) (apiKey_of inp) EmptyString txt),
    (make_payload EmptyString txt).
  split; [|repeat split].
  cbv zeta in Rq. rewrite Rq. apply in_rev. rewrite rev_involutive.
  apply expected_requests_in with (f := f); [exact Hin|].
  unfold request_for. rewrite Hn, Hc. reflexivity.
Qed.

Lemma dot_md_file_has_empty_title_witness :
  exists r payload,
    In r (requests_of (events (snd (startImportProcess confirming
            (mkInputs sample_url sample_key
               (Some (FileList_of [mkFile ".md" (inl "body")]))) initial))))
    /\ req_body r = Some payload
    /\ p_title payload = EmptyString.
Proof.
  destruct (dot_md_file_has_empty_title confirming
              (mkInputs sample_url sample_key
                 (Some (FileList_of [mkFile ".md" (inl "body")]))))
    as (_ & _ & H).
  destruct (H eq_refl) as (files & Ef & K).
  injection Ef as <-.
  destruct (K (mkFile ".md" (inl "body")) "body" (or_introl eq_refl) eq_refl eq_refl)
    as (r & payload & I & _ & _ & B & T & _).
  exists r, payload. exact (conj I (conj B T)).
Defined.

(** * Further properties of the script *)

(** ** Normalising the form fields *)

Lemma removeTrailingSlash_slash (p : string) :
  JSString.removeTrailingSlash (p ++ "/")%string = p.
Proof.
  induction p as [|c p IH]; [reflexivity|].
  change ((String c p ++ "/")%string) with (String c (p ++ "/")%string).
  cbn [JSString.removeTrailingSlash].
  destruct (p ++ "/")%string as [|d q] eqn:E.
  - destruct p; discriminate E.
  - now rewrite IH.
Qed.

Lemma removeTrailingSlash_other (s : string) :
  (forall p, s <> (p ++ "/")%string) -> JSString.removeTrailingSlash s = s.
Proof.
  induction s as [|c s IH]; intros H; [reflexivity|].
  cbn [JSString.removeTrailingSlash].
  destruct s as [|d s].
  - destruct (Ascii.eqb_spec c "/"); [|reflexivity].
    subst c. now destruct (H EmptyString).
  - f_equal. apply IH. intros p E. apply (H (String c p)). simpl. now rewrite E.
Qed.

(** X1. [replace(/\/$/, '')] removes exactly one slash, the last character
    of the string: a string that ends with a slash loses it (so a string
    ending with two slashes keeps one), and any other string is
    unchanged. *)
Theorem removeTrailingSlash_spec (s : string) :
  (forall p, s = (p ++ "/")%string -> JSString.removeTrailingSlash s = p)
  /\ (forall p, s = (p ++ "//")%string ->
        JSString.removeTrailingSlash s = (p ++ "/")%string)
  /\ ((forall p, s <> (p ++ "/")%string) -> JSString.removeTrailingSlash s = s)
  /\ String.length (JSString.removeTrailingSlash s) <= String.length s.
Proof.
  split; [|split; [|split]].
  - intros p ->. apply removeTrailingSlash_slash.
  - intros p ->.
    replace (p ++ "//")%string with ((p ++ "/") ++ "/")%string
      by (now rewrite app_assoc_s).
    apply removeTrailingSlash_slash.
  - apply removeTrailingSlash_other.
  - induction s as [|c s IH]; [simpl; lia|].
    cbn [JSString.removeTrailingSlash].
    destruct s as [|d s].
    + destruct (Ascii.eqb c "/"); simpl; lia.
    + cbn [String.length] in *. lia.
Qed.

Lemma removeTrailingSlash_spec_witness :
  JSString.removeTrailingSlash "http://host/api/v1/" = "http://host/api/v1"
  /\ JSString.removeTrailingSlash "http://host//" = "http://host/".
Proof.
  split.
  - exact (proj1 (removeTrailingSlash_spec "http://host/api/v1/")
             "http://host/api/v1" eq_refl).
  - exact (proj1 (proj2 (removeTrailingSlash_spec "http://host//"))
             "http://host" eq_refl).
Defined.

Lemma trimStart_all_space (s : string) :
  all_space s = true -> JSString.trimStart s = EmptyString.
Proof.
  induction s as [|c s IH]; [reflexivity|].
  simpl. intros H. apply andb_true_iff in H as [H1 H2].
  rewrite H1. now apply IH.
Qed.

Lemma trim_all_space (s : string) :
  all_space s = true -> JSString.trim s = EmptyString.
Proof. intros H. unfold JSString.trim. now rewrite trimStart_all_space. Qed.

(** X2. A URL or a key made of white space only, and a URL that is a single
    slash once trimmed, fail the validation like an empty field: the run
    logs the validation error and ends without reading a file or calling the
    service. *)
Theorem blank_fields_are_rejected (env : Env) (inp : Inputs) (st : State) :
  all_space (karakeepUrl inp) = true
  \/ JSString.trim (karakeepUrl inp) = "/"
  \/ all_space (karakeepApiKey inp) = true ->
  invalid inp = true
  /\ startImportProcess env inp st
     = (Ok tt,
        mkState (rejected_events ++ events st)
          (filesProcessedCount st) (filesSyncedSuccessfully st)).
Proof.
  intros H.
  assert (V : invalid inp = true).
  { unfold invalid, apiUrl_of, apiKey_of.
    destruct H as [H | [H | H]].
    - now rewrite (trim_all_space _ H).
    - now rewrite H.
    - rewrite (trim_all_space _ H). simpl. apply orb_true_iff. left.
      apply orb_true_r. }
  split; [exact V | now apply startImportProcess_rejected].
Qed.

Lemma blank_fields_are_rejected_witness :
  invalid (mkInputs "   " sample_key (Some (FileList_of three_files))) = true
  /\ invalid (mkInputs " / " sample_key (Some (FileList_of three_files))) = true.
Proof.
  split.
  - refine (proj1 (blank_fields_are_rejected confirming
                     (mkInputs "   " sample_key (Some (FileList_of three_files)))
                     initial _)).
    left. reflexivity.
  - refine (proj1 (blank_fields_are_rejected confirming
                     (mkInputs " / " sample_key (Some (FileList_of three_files)))
                     initial _)).
    right. left. reflexivity.
Defined.

(** ** The extension test and the title *)

Lemma toLowerCase_app (a b : string) :
  JSString.toLowerCase (a ++ b)%string
  = (JSString.toLowerCase a ++ JSString.toLowerCase b)%string.
Proof. induction a as [|c a IH]; simpl; [reflexivity | now rewrite IH]. Qed.

Lemma lower_char_m (c : ascii) :
  JSString.lower_char c = "m"%char -> c = "m"%char \/ c = "M"%char.
Proof.
  destruct c as [[] [] [] [] [] [] [] []]; vm_compute; intros H;
    solve [now left | now right | discriminate H].
Qed.

Lemma lower_char_d (c : ascii) :
  JSString.lower_char c = "d"%char -> c = "d"%char \/ c = "D"%char.
Proof.
  destruct c as [[] [] [] [] [] [] [] []]; vm_compute; intros H;
    solve [now left | now right | discriminate H].
Qed.

(** X3. The extension test accepts exactly the names that end with [.md],
    [.mD], [.Md] or [.MD]; whatever stands before the extension, including
    nothing, plays no part. *)
Theorem is_md_iff (fileName : string) :
  is_md fileName = true
  <-> exists p x, fileName = (p ++ x)%string /\ In x md_extensions.
Proof.
  split.
  - unfold is_md. intros H.
    destruct (endsWith_split _ _ H) as (p' & E).
    destruct (toLowerCase_split _ _ _ E) as (p & x & -> & _ & Hx).
    destruct x as [|c1 [|c2 [|c3 [|c4 x]]]]; try discriminate Hx.
    simpl in Hx. injection Hx as H1 H2 H3.
    apply lower_char_dot in H1. subst c1.
    exists p, (String "." (String c2 (String c3 EmptyString))).
    split; [reflexivity|]. unfold md_extensions.
    destruct (lower_char_m _ H2) as [-> | ->];
      destruct (lower_char_d _ H3) as [-> | ->]; simpl; auto.
  - intros (p & x & -> & Hx). unfold is_md.
    rewrite toLowerCase_app.
    assert (L : JSString.toLowerCase x = ".md").
    { unfold md_extensions in Hx. simpl in Hx.
      destruct Hx as [<- | [<- | [<- | [<- | []]]]]; reflexivity. }
    rewrite L. apply endsWith_app.
Qed.

Lemma is_md_iff_witness : is_md "Plan.MD" = true /\ is_md ".md" = true.
Proof.
  split.
  - apply (proj2 (is_md_iff "Plan.MD")). exists "Plan", ".MD".
    split; [reflexivity | simpl; tauto].
  - apply (proj2 (is_md_iff ".md")). exists EmptyString, ".md".
    split; [reflexivity | simpl; tauto].
Defined.

(** X4. For a file whose name ends with the lower-case extension [.md], the
    note of the payload names the file exactly: the title followed by [.md]
    is the file name again. *)
Theorem note_names_the_file (fileName textContent : string) :
  JSString.endsWith fileName ".md" = true ->
  (getFileNameWithoutExtension fileName ++ ".md")%string = fileName
  /\ p_note (make_payload (getFileNameWithoutExtension fileName) textContent)
     = ("Imported from Markdown file: " ++ fileName)%string.
Proof.
  intros H. destruct (endsWith_split _ _ H) as (p & ->).
  assert (T : getFileNameWithoutExtension (p ++ ".md")%string = p)
    by (now apply title_of_match).
  split.
  - now rewrite T.
  - unfold make_payload. cbn [p_note]. now rewrite T.
Qed.

Lemma note_names_the_file_witness :
  p_note (make_payload (getFileNameWithoutExtension "meeting.notes.md") "text")
  = "Imported from Markdown file: meeting.notes.md".
Proof.
  exact (proj2 (note_names_the_file "meeting.notes.md" "text" eq_refl)).
Defined.

(** X5. The title is always a prefix of the file name: what the derivation
    removes is either nothing or a suffix that starts with a dot and holds
    no slash and no other dot. *)
Theorem title_is_a_prefix (fileName : string) :
  exists suffix,
    fileName = (getFileNameWithoutExtension fileName ++ suffix)%string
    /\ (suffix = EmptyString
        \/ exists e, suffix = String "." e /\ ext_tail e = true)
    /\ String.length (getFileNameWithoutExtension fileName) <= String.length fileName.
Proof.
  induction fileName as [|c s IH].
  - exists EmptyString. simpl. auto.
  - cbn [getFileNameWithoutExtension].
    destruct (Ascii.eqb c "." && ext_tail s) eqn:E.
    + apply andb_true_iff in E as [E1 E2]. apply Ascii.eqb_eq in E1. subst c.
      exists (String "." s). simpl. repeat split; [|lia].
      right. now exists s.
    + destruct IH as (suffix & Es & Hs & L).
      exists suffix. simpl. repeat split; [now rewrite <- Es | exact Hs | lia].
Qed.

(** ** Truncation *)

Lemma substring0_app_left (n : nat) (a b : string) :
  n <= String.length a ->
  JSString.substring0 n (a ++ b)%string = JSString.substring0 n a.
Proof.
  revert a; induction n as [|n IH]; intros a H.
  - destruct a; simpl; destruct b; reflexivity.
  - destruct a as [|c a]; simpl in *; [lia|]. f_equal. apply IH. lia.
Qed.

Lemma substring0_idem (n : nat) (s : string) :
  JSString.substring0 n (JSString.substring0 n s) = JSString.substring0 n s.
Proof.
  revert s; induction n as [|n IH]; intros [|c s]; simpl; auto.
  now rewrite IH.
Qed.

(** X6. Truncating twice is truncating once, at 255 and at any other limit;
    and a truncated title starts with the same 252 characters as the
    title. *)
Theorem truncateTitle_idempotent (title : string) :
  truncateTitle (truncateTitle title) = truncateTitle title
  /\ (forall limit,
        truncateTitleTo limit (truncateTitleTo limit title)
        = truncateTitleTo limit title)
  /\ JSString.substring0 252 (truncateTitle title) = JSString.substring0 252 title.
Proof.
  assert (G : forall limit,
             truncateTitleTo limit (truncateTitleTo limit title)
             = truncateTitleTo limit title).
  { intros limit.
    destruct (Nat.le_gt_cases (String.length title) limit) as [L | L].
    - rewrite (truncateTitleTo_short limit title L).
      exact (truncateTitleTo_short limit title L).
    - apply truncateTitleTo_short. rewrite truncateTitleTo_length; auto. }
  split; [apply G | split; [exact G|]].
  unfold truncateTitle, MAX_KARAKEEP_TITLE_LENGTH.
  destruct (Nat.le_gt_cases (String.length title) 255) as [L | L].
  - now rewrite (truncateTitleTo_short 255 title L).
  - rewrite truncateTitleTo_long by exact L.
    change (3 <=? 255) with true. cbv iota. change (255 - 3) with 252.
    rewrite substring0_app_left.
    + apply substring0_idem.
    + rewrite length_substring0. lia.
Qed.

(** ** The API call *)

Section ApiCall.

Variable env : Env.

(** The whole behaviour of [fetchKarakeep]. *)
Lemma fetchKarakeep_run (url method apiKey : string) (body : option Payload) (st : State) :
  fetchKarakeep env url method apiKey body st
  = (fetch_result
       (fetch env (List.length (requests_of (events st)))
          (api_request url method apiKey body)),
     mkState
       (fetch_log method url
          (fetch env (List.length (requests_of (events st)))
             (api_request url method apiKey body))
        ++ EvFetch (api_request url method apiKey body)
        :: EvLog (MsgApiRequest method url) false
        :: events st)
       (filesProcessedCount st) (filesSyncedSuccessfully st)).
Proof.
  destruct st as [evs0 pc sc].
  cbv beta iota zeta delta [fetchKarakeep try_catch bind do_fetch logMessage emit get
    ret throw lift events filesProcessedCount filesSyncedSuccessfully].
  change (mkRequest url method _ body) with (api_request url method apiKey body).
  change (requests_of (EvLog (MsgApiRequest method url) false :: evs0))
    with (requests_of evs0).
  unfold fetch_result, fetch_log, api_error_text.
  destruct (fetch env _ _) as [e | r]; [reflexivity|].
  destruct (ok r); cbn [negb].
  - fold (no_content r). destruct (no_content r); [reflexivity|].
    destruct (json r); reflexivity.
  - destruct (text r); reflexivity.
Qed.

Lemma fetch_log_kinds (method url : string) (o : FetchOutcome) :
  forallb log_or_fetch (fetch_log method url o) = true.
Proof.
  destruct o as [e | r]; [reflexivity|]. unfold fetch_log.
  destruct (ok r); cbn [negb]; [|reflexivity].
  destruct (no_content r); [reflexivity|]. destruct (json r); reflexivity.
Qed.

Lemma fetch_log_requests (method url : string) (o : FetchOutcome) :
  requests_of (fetch_log method url o) = [].
Proof.
  destruct o as [e | r]; [reflexivity|]. unfold fetch_log.
  destruct (ok r); cbn [negb]; [|reflexivity].
  destruct (no_content r); [reflexivity|]. destruct (json r); reflexivity.
Qed.

Lemma append_empty (s : string) : (s ++ EmptyString)%string = s.
Proof. induction s as [|c s IH]; simpl; [reflexivity | now rewrite IH]. Qed.

Lemma ok_false (r : Response) :
  ok r = false <-> status r < 200 \/ 299 < status r.
Proof.
  unfold ok. rewrite andb_false_iff, !Nat.leb_gt. reflexivity.
Qed.

Lemma ok_true (r : Response) : ok r = true <-> 200 <= status r <= 299.
Proof.
  unfold ok. rewrite andb_true_iff, !Nat.leb_le. reflexivity.
Qed.

(** X7. On a response whose status is outside 200-299, [fetchKarakeep]
    throws an error whose message is ["API Error: "], the status, a space
    and the status text, followed by [" - "] and at most the first 200
    characters of the body when the body can be read, and by nothing when it
    cannot.  Before throwing it logs the status as an error entry, then the
    message as a fetch error; the body is never parsed as JSON. *)
Theorem fetchKarakeep_error_status
  (url method apiKey : string) (body : option Payload) (st : State) (r : Response) :
  fetch env (List.length (requests_of (events st))) (api_request url method apiKey body)
    = Resolved r ->
  status r < 200 \/ 299 < status r ->
  let errorText :=
    ("API Error: " ++ JSString.ofNat (status r) ++ " " ++ statusText r)%string in
  exists excerpt,
    fetchKarakeep env url method apiKey body st
    = (Throw (mkError (errorText ++ excerpt)%string),
       mkState
         (EvLog (MsgFetchError method url (errorText ++ excerpt)%string) true
          :: EvLog (MsgApiResponseError method url (status r)) true
          :: EvFetch (api_request url method apiKey body)
          :: EvLog (MsgApiRequest method url) false
          :: events st)
         (filesProcessedCount st) (filesSyncedSuccessfully st))
    /\ String.length excerpt <= 203
    /\ (forall b, text r = Ok b ->
          excerpt = (" - " ++ JSString.substring0 200 b)%string)
    /\ (forall e, text r = Throw e -> excerpt = EmptyString).
Proof.
  intros Ho Hs errorText. apply ok_false in Hs.
  rewrite fetchKarakeep_run, Ho. unfold fetch_result, fetch_log, api_error_text.
  rewrite Hs. cbn [negb]. fold errorText.
  destruct (text r) as [b | e].
  - exists (" - " ++ JSString.substring0 200 b)%string.
    split; [reflexivity|]. split; [|split; [now intros b' [= <-] | discriminate]].
    cbn [String.length append]. rewrite length_substring0. lia.
  - exists EmptyString. rewrite append_empty.
    split; [reflexivity|]. split; [simpl; lia|].
    split; [discriminate | reflexivity].
Qed.

(** X8. [fetchKarakeep] returns the value [v] exactly in these two cases:
    the fetch resolves with a status from 200 to 299 that is 204 or comes
    with a [content-length] header equal to ["0"], and [v] is [null] (the
    body is then not parsed, whatever it holds); or the fetch resolves with
    a status from 200 to 299 other than 204, the [content-length] header is
    not ["0"], the body parses as JSON and [v] is the parsed body.  In every
    other case, a body that is not JSON on a 200 response among them, it
    returns no value. *)
Theorem fetchKarakeep_returns_iff
  (url method apiKey : string) (body : option Payload) (st : State) (v : JSValue) :
  fst (fetchKarakeep env url method apiKey body st) = Ok v
  <-> exists r,
        fetch env (List.length (requests_of (events st)))
          (api_request url method apiKey body) = Resolved r
        /\ 200 <= status r <= 299
        /\ ((status r = 204 \/ contentLength r = Some "0") /\ v = JNull
            \/ (status r <> 204 /\ contentLength r <> Some "0" /\ json r = Ok v)).
Proof.
  rewrite fetchKarakeep_run. cbn [fst]. unfold fetch_result.
  destruct (fetch env _ _) as [e | r].
  - split; [discriminate | intros (r & H & _); discriminate H].
  - assert (NC : no_content r = true
                 <-> status r = 204 \/ contentLength r = Some "0").
    { unfold no_content. rewrite orb_true_iff, Nat.eqb_eq.
      destruct (contentLength r) as [c|].
      - rewrite String.eqb_eq. split; intros [H | H]; auto.
        + right. now subst c.
        + right. now injection H.
      - split; intros [H | H]; auto; discriminate. }
    split.
    + intros H. exists r. split; [reflexivity|].
      destruct (ok r) eqn:Eok; cbn [negb] in H; [|discriminate].
      split; [now apply ok_true|].
      destruct (no_content r) eqn:En.
      * left. split; [now apply NC | now injection H].
      * right. assert (N : ~ (status r = 204 \/ contentLength r = Some "0")).
        { intros C. apply NC in C. discriminate. }
        repeat split; auto.
    + intros (r' & [= <-] & Hs & H). apply ok_true in Hs. rewrite Hs. cbn [negb].
      destruct H as [[H ->] | (H1 & H2 & H3)].
      * apply NC in H. now rewrite H.
      * destruct (no_content r) eqn:En; [|exact H3].
        assert (C : status r = 204 \/ contentLength r = Some "0")
          by (now apply NC).
        destruct C; contradiction.
Qed.

(** X9. Every call of [fetchKarakeep] makes one network call, with the
    bearer token, the JSON content type and the JSON accept header, and
    leaves the counters alone.  An error it throws is logged first, as the
    latest entry and as an error, with the message of that error; a
    rejection of the fetch and a failure to parse the body are thrown on
    unchanged.  When it returns, the latest entry is not an error. *)
Theorem fetchKarakeep_logs_what_it_throws
  (url method apiKey : string) (body : option Payload) (st : State) :
  let run := fetchKarakeep env url method apiKey body st in
  let o := fetch env (List.length (requests_of (events st)))
             (api_request url method apiKey body) in
  requests_of (events (snd run))
    = mkRequest url method
        [("Authorization", ("Bearer " ++ apiKey)%string);
         ("Content-Type", "application/json");
         ("Accept", "application/json")] body
      :: requests_of (events st)
  /\ filesProcessedCount (snd run) = filesProcessedCount st
  /\ filesSyncedSuccessfully (snd run) = filesSyncedSuccessfully st
  /\ (forall e, fst run = Throw e ->
        exists rest,
          events (snd run) = EvLog (MsgFetchError method url (message e)) true :: rest)
  /\ (forall v, fst run = Ok v ->
        exists m rest, events (snd run) = EvLog m false :: rest)
  /\ (forall e, o = Rejected e -> fst run = Throw e)
  /\ (forall r e, o = Resolved r -> ok r = true -> no_content r = false ->
        json r = Throw e -> fst run = Throw e).
Proof.
  intros run o. unfold run. rewrite fetchKarakeep_run. fold o.
  cbn [fst snd events filesProcessedCount filesSyncedSuccessfully].
  split; [|split; [reflexivity|split; [reflexivity|]]].
  - rewrite requests_of_app, fetch_log_requests. reflexivity.
  - unfold fetch_result, fetch_log.
    destruct o as [e0 | r];
      [|destruct (ok r) eqn:Eok; cbn [negb];
        [destruct (no_content r) eqn:Enc; [|destruct (json r) eqn:Ej]|]].
    all: repeat split; intros; try discriminate;
      repeat match goal with
             | H : Throw _ = Throw _ |- _ => injection H as <-
             | H : Ok _ = Ok _ |- _ => injection H as <-
             | H : Rejected _ = Rejected _ |- _ => injection H as <-
             | H : Resolved _ = Resolved _ |- _ => injection H as <-
             end;
      try congruence; try (eexists; reflexivity); try (eexists _, _; reflexivity).
Qed.

End ApiCall.

Lemma fetchKarakeep_error_status_witness :
  exists st',
    fetchKarakeep (always internal_error) sample_url "POST" sample_key None initial
    = (Throw (mkError "API Error: 500 Internal Server Error - Internal error"), st').
Proof.
  assert (S : status internal_error < 200 \/ 299 < status internal_error)
    by (right; simpl; lia).
  destruct (fetchKarakeep_error_status (always internal_error) sample_url "POST"
              sample_key None initial internal_error eq_refl S)
    as (excerpt & E & _ & B & _).
  rewrite (B _ eq_refl) in E. eexists. exact E.
Defined.

Lemma fetchKarakeep_returns_iff_witness :
  fst (fetchKarakeep (always no_content_response) sample_url "POST" sample_key None
         initial) = Ok JNull.
Proof.
  apply (proj2 (fetchKarakeep_returns_iff (always no_content_response) sample_url
                  "POST" sample_key None initial JNull)).
  exists no_content_response. split; [reflexivity|].
  split; [simpl; lia|]. left. split; [now left | reflexivity].
Defined.

Lemma fetchKarakeep_logs_what_it_throws_witness :
  fst (fetchKarakeep offline sample_url "POST" sample_key None initial)
  = Throw (mkError "Failed to fetch").
Proof.
  pose proof (fetchKarakeep_logs_what_it_throws offline sample_url "POST" sample_key
                None initial) as (_ & _ & _ & _ & _ & R & _).
  exact (R (mkError "Failed to fetch") eq_refl).
Defined.

(** ** The create call, event by event *)

Section CreateEvents.

Variable env : Env.

(** The events of a create call: the announcement, the request line, the
    network call, the lines of [fetchKarakeep] and one verdict. *)
Lemma createRootItemInKarakeep_events
  (apiUrl apiKey title textContent : string) (st : State) :
  exists verdict,
    createRootItemInKarakeep env apiUrl apiKey title textContent st
    = (Ok (confirms (fetch env (List.length (requests_of (events st)))
                       (bookmark_request apiUrl apiKey title textContent))),
       mkState
         (verdict
          :: fetch_log "POST" (apiUrl ++ "/bookmarks")%string
               (fetch env (List.length (requests_of (events st)))
                  (bookmark_request apiUrl apiKey title textContent))
          ++ EvFetch (bookmark_request apiUrl apiKey title textContent)
          :: EvLog (MsgApiRequest "POST" (apiUrl ++ "/bookmarks")%string) false
          :: EvLog (MsgAttempting "CREATE" title) false
          :: events st)
         (filesProcessedCount st) (filesSyncedSuccessfully st))
    /\ verdict_line title
         (fetch env (List.length (requests_of (events st)))
            (bookmark_request apiUrl apiKey title textContent))
         verdict.
Proof.
  destruct st as [evs0 pc sc].
  cbv beta iota zeta delta [createRootItemInKarakeep try_catch bind logMessage emit
    ret throw lift].
  rewrite fetchKarakeep_run.
  cbn [events filesProcessedCount filesSyncedSuccessfully requests_of].
  change (api_request (apiUrl ++ "/bookmarks")%string "POST" apiKey
            (Some (make_payload title textContent)))
    with (bookmark_request apiUrl apiKey title textContent).
  set (o := fetch env (List.length (requests_of evs0))
              (bookmark_request apiUrl apiKey title textContent)).
  unfold verdict_line, confirms, fetch_result.
  destruct o as [e | r]; [eexists; split; [reflexivity | reflexivity]|].
  destruct (ok r) eqn:Eok; cbn [negb andb];
    [|eexists; split; [reflexivity | reflexivity]].
  destruct (no_content r) eqn:Enc; cbn [negb andb].
  { eexists; split; [reflexivity|]. now left. }
  destruct (json r) as [data | e] eqn:Ej;
    [|eexists; split; [reflexivity | reflexivity]].
  unfold usable_id.
  destruct (get_id data) as [id|] eqn:Eid;
    [|eexists; split; [reflexivity | now left]].
  destruct (truthy (Some id)) eqn:Et; cbn [negb andb];
    [|eexists; split; [reflexivity | now left]].
  destruct (js_String id) as [t | e] eqn:Es;
    [|eexists; split; [reflexivity | right; now exists e]].
  destruct (Text_isEmpty t) eqn:Ee; cbn [negb].
  - eexists; split; [reflexivity | now left].
  - eexists; split; [reflexivity | now exists t].
Qed.


End CreateEvents.


(** ** One file of the loop *)

Lemma forallb_rev_eq {A : Type} (p : A -> bool) (l : list A) :
  forallb p (rev l) = forallb p l.
Proof.
  induction l as [|x l IH]; [reflexivity|].
  cbn [rev forallb]. rewrite forallb_app, IH. cbn [forallb].
  rewrite andb_true_r. apply andb_comm.
Qed.

Section OneFile.

Variable env : Env.

Lemma verdict_is_log (title : string) (o : FetchOutcome) (e : Event) :
  verdict_line title o e -> exists m b, e = EvLog m b.
Proof.
  unfold verdict_line. destruct (fetch_result o); [destruct (confirms o)|].
  - intros (id & ->). eauto.
  - intros [-> | (err & ->)]; eauto.
  - intros ->. eauto.
Qed.

Lemma processFile_unreadable
  (apiUrl apiKey : string) (totalFiles : nat) (f : File) (code : nat) (st : State) :
  is_md (name f) = true -> content f = inr code ->
  processFile env apiUrl apiKey totalFiles f st
  = (Ok tt,
     mkState
       (EvSleep 100
        :: EvLog (MsgFileError (name f) (read_error_text (name f) code)) true
        :: EvRead (name f)
        :: EvLog (MsgProcessingFile (filesProcessedCount st + 1) totalFiles (name f)) false
        :: events st)
       (filesProcessedCount st + 1) (filesSyncedSuccessfully st)).
Proof.
  intros Hm Hc. destruct st as [evs0 pc sc].
  cbv beta iota zeta delta [processFile try_catch bind readFileContent sleep setProcessed
    setSynced logMessage emit get ret throw events filesProcessedCount
    filesSyncedSuccessfully].
  rewrite Hm, Hc. reflexivity.
Qed.

Lemma processFile_readable
  (apiUrl apiKey : string) (totalFiles : nat) (f : File) (txt : string) (st : State) :
  is_md (name f) = true -> content f = inl txt ->
  exists verdict,
    processFile env apiUrl apiKey totalFiles f st
    = (Ok tt,
       mkState
         (EvSleep 100
          :: (if confirms (fetch env (List.length (requests_of (events st)))
                             (bookmark_request apiUrl apiKey
                                (getFileNameWithoutExtension (name f)) txt))
              then [] else [EvLog (MsgImportFailed (name f)) true])
          ++ verdict
          :: fetch_log "POST" (apiUrl ++ "/bookmarks")%string
               (fetch env (List.length (requests_of (events st)))
                  (bookmark_request apiUrl apiKey
                     (getFileNameWithoutExtension (name f)) txt))
          ++ EvFetch (bookmark_request apiUrl apiKey
                        (getFileNameWithoutExtension (name f)) txt)
          :: EvLog (MsgApiRequest "POST" (apiUrl ++ "/bookmarks")%string) false
          :: EvLog (MsgAttempting "CREATE" (getFileNameWithoutExtension (name f))) false
          :: EvLog (MsgReadContent (name f) (JSString.length txt)) false
          :: EvRead (name f)
          :: EvLog (MsgProcessingFile (filesProcessedCount st + 1) totalFiles (name f)) false
          :: events st)
         (filesProcessedCount st + 1)
         (filesSyncedSuccessfully st
          + (if confirms (fetch env (List.length (requests_of (events st)))
                            (bookmark_request apiUrl apiKey
                               (getFileNameWithoutExtension (name f)) txt))
             then 1 else 0)))
    /\ verdict_line (getFileNameWithoutExtension (name f))
         (fetch env (List.length (requests_of (events st)))
            (bookmark_request apiUrl apiKey (getFileNameWithoutExtension (name f)) txt))
         verdict.
Proof.
  intros Hm Hc. destruct st as [evs0 pc sc].
  cbv beta iota zeta delta [processFile try_catch bind readFileContent sleep setProcessed
    setSynced logMessage emit get ret throw events filesProcessedCount
    filesSyncedSuccessfully].
  rewrite Hm, Hc. cbn [negb].
  match goal with
  | |- context [createRootItemInKarakeep env ?a ?k ?t ?x ?s] =>
      destruct (createRootItemInKarakeep_events env a k t x s) as (verdict & E & V)
  end.
  cbn [events filesProcessedCount filesSyncedSuccessfully requests_of] in E, V.
  rewrite E. clear E. exists verdict. split; [|exact V].
  destruct (confirms _); [reflexivity|].
  now rewrite Nat.add_0_r.
Qed.

Lemma rev_cons_app {A : Type} (x : A) (l : list A) : rev (x :: l) = rev l ++ [x].
Proof. reflexivity. Qed.

(** X11. A [.md] file that cannot be read costs no network call, whatever
    the service would answer: the iteration announces the file, hands it to
    the reader, logs one error entry with the file name and the reader's
    message (the name in quotes and the error code), pauses 100 ms and ends
    normally; the processed count goes up by one and the succeeded count
    stays. *)
Theorem unreadable_file_is_reported
  (apiUrl apiKey : string) (totalFiles : nat) (f : File) (code : nat) (st : State) :
  is_md (name f) = true -> content f = inr code ->
  let run := processFile env apiUrl apiKey totalFiles f st in
  fst run = Ok tt
  /\ trace (snd run)
     = trace st
       ++ [EvLog (MsgProcessingFile (filesProcessedCount st + 1) totalFiles (name f)) false;
           EvRead (name f);
           EvLog (MsgFileError (name f)
                    ("File " ++ JSString.dquote ++ name f ++ JSString.dquote
                     ++ " could not be read! Code: " ++ JSString.ofNat code)%string)
             true;
           EvSleep 100]
  /\ requests_of (events (snd run)) = requests_of (events st)
  /\ filesProcessedCount (snd run) = filesProcessedCount st + 1
  /\ filesSyncedSuccessfully (snd run) = filesSyncedSuccessfully st.
Proof.
  intros Hm Hc run. unfold run.
  rewrite (processFile_unreadable apiUrl apiKey totalFiles f code st Hm Hc).
  cbn [fst snd events filesProcessedCount filesSyncedSuccessfully].
  repeat split. unfold trace. cbn [events rev].
  rewrite <- !app_assoc. reflexivity.
Qed.

(** X12. A [.md] file that can be read is announced, read, measured (its
    length is logged) and posted once under its title; the succeeded count
    goes up by one exactly when the service confirms the creation, and
    otherwise one more error entry names the file; in both cases the
    iteration pauses 100 ms and ends normally with the processed count one
    higher. *)
Theorem readable_file_is_posted
  (apiUrl apiKey : string) (totalFiles : nat) (f : File) (txt : string) (st : State) :
  is_md (name f) = true -> content f = inl txt ->
  let run := processFile env apiUrl apiKey totalFiles f st in
  let title := getFileNameWithoutExtension (name f) in
  let request := bookmark_request apiUrl apiKey title txt in
  let confirmed := confirms (fetch env (List.length (requests_of (events st))) request) in
  exists middle,
    fst run = Ok tt
    /\ trace (snd run)
       = trace st
         ++ [EvLog (MsgProcessingFile (filesProcessedCount st + 1) totalFiles (name f)) false;
             EvRead (name f);
             EvLog (MsgReadContent (name f) (JSString.length txt)) false;
             EvLog (MsgAttempting "CREATE" title) false;
             EvLog (MsgApiRequest "POST" (apiUrl ++ "/bookmarks")%string) false;
             EvFetch request]
         ++ middle
         ++ (if confirmed then [] else [EvLog (MsgImportFailed (name f)) true])
         ++ [EvSleep 100]
    /\ forallb log_or_fetch middle = true
    /\ requests_of (events (snd run)) = request :: requests_of (events st)
    /\ filesProcessedCount (snd run) = filesProcessedCount st + 1
    /\ filesSyncedSuccessfully (snd run)
       = filesSyncedSuccessfully st + (if confirmed then 1 else 0).
Proof.
  intros Hm Hc run title request confirmed.
  destruct (processFile_readable apiUrl apiKey totalFiles f txt st Hm Hc)
    as (verdict & E & V).
  fold title in E, V. fold request in E, V. fold confirmed in E.
  destruct (verdict_is_log _ _ _ V) as (m & b & ->).
  exists (rev (fetch_log "POST" (apiUrl ++ "/bookmarks")%string
                 (fetch env (List.length (requests_of (events st))) request))
          ++ [EvLog m b]).
  unfold run. rewrite E.
  cbn [fst snd events filesProcessedCount filesSyncedSuccessfully].
  split; [reflexivity|]. split; [|split; [|split; [|split; reflexivity]]].
  - unfold trace. cbn [events].
    rewrite rev_cons_app, rev_app_distr, rev_cons_app, rev_app_distr.
    cbn [rev app]. rewrite <- !app_assoc. cbn [app].
    destruct confirmed; reflexivity.
  - rewrite forallb_app. cbn [forallb log_or_fetch].
    rewrite forallb_rev_eq, fetch_log_kinds. reflexivity.
  - cbn [requests_of]. rewrite requests_of_app.
    destruct confirmed; cbn [requests_of app];
      rewrite requests_of_app, fetch_log_requests; reflexivity.
Qed.

End OneFile.

Lemma unreadable_file_is_reported_witness :
  file_errors_of
    (events (snd (processFile confirming sample_url sample_key 3
                    (mkFile "b.md" (inr 4)) initial)))
  = ["b.md"]
  /\ requests_of
       (events (snd (processFile confirming sample_url sample_key 3
                       (mkFile "b.md" (inr 4)) initial)))
     = [].
Proof.
  pose proof (unreadable_file_is_reported confirming sample_url sample_key 3
                (mkFile "b.md" (inr 4)) 4 initial eq_refl eq_refl)
    as (_ & T & R & _).
  split; [|exact R].
  unfold trace in T. apply (f_equal (@rev _)) in T.
  rewrite rev_involutive in T. rewrite T. reflexivity.
Defined.

Lemma readable_file_is_posted_witness :
  filesSyncedSuccessfully
    (snd (processFile confirming sample_url sample_key 3
            (mkFile "a.md" (inl "alpha")) initial)) = 1
  /\ filesSyncedSuccessfully
       (snd (processFile (always internal_error) sample_url sample_key 3
               (mkFile "a.md" (inl "alpha")) initial)) = 0.
Proof.
  split.
  - destruct (readable_file_is_posted confirming sample_url sample_key 3
                (mkFile "a.md" (inl "alpha")) "alpha" initial eq_refl eq_refl)
      as (middle & _ & _ & _ & _ & _ & S).
    exact S.
  - destruct (readable_file_is_posted (always internal_error) sample_url sample_key 3
                (mkFile "a.md" (inl "alpha")) "alpha" initial eq_refl eq_refl)
      as (middle & _ & _ & _ & _ & _ & S).
    exact S.
Defined.


(** ** The whole run *)

Section WholeRun.

Variable env : Env.

Lemma sleeps_of_app (a b : list Event) :
  sleeps_of (a ++ b) = sleeps_of a ++ sleeps_of b.
Proof.
  induction a as [|e a IH]; simpl; [reflexivity|].
  destruct e; simpl; now rewrite ?IH.
Qed.

Lemma log_or_fetch_quiet (evs : list Event) :
  forallb log_or_fetch evs = true ->
  sleeps_of evs = [] /\ filter is_control evs = [].
Proof.
  induction evs as [|e evs IH]; [now split|].
  cbn [forallb]. intros H. apply andb_true_iff in H as [He H].
  destruct (IH H) as [I1 I2].
  destruct e; try discriminate He; simpl; now split.
Qed.

(** What one iteration adds, as far as pauses and page controls go. *)
Lemma processFile_kinds (apiUrl apiKey : string) (totalFiles : nat) (f : File) (st : State) :
  exists st' evs,
    processFile env apiUrl apiKey totalFiles f st = (Ok tt, st')
    /\ events st' = evs ++ events st
    /\ sleeps_of evs = (if md_file f then [100] else [])
    /\ filter is_control evs = [].
Proof.
  unfold md_file. destruct (is_md (name f)) eqn:Hm.
  - destruct (content f) as [txt | code] eqn:Hc.
    + destruct (processFile_readable env apiUrl apiKey totalFiles f txt st Hm Hc)
        as (verdict & E & V).
      destruct (verdict_is_log _ _ _ V) as (m & b & ->).
      set (o := fetch env _ _) in *.
      set (front := (if confirms o then [] else [EvLog (MsgImportFailed (name f)) true])
                    ++ EvLog m b
                    :: fetch_log "POST" (apiUrl ++ "/bookmarks")%string o).
      set (back := [EvFetch (bookmark_request apiUrl apiKey
                               (getFileNameWithoutExtension (name f)) txt);
                    EvLog (MsgApiRequest "POST" (apiUrl ++ "/bookmarks")%string) false;
                    EvLog (MsgAttempting "CREATE" (getFileNameWithoutExtension (name f))) false;
                    EvLog (MsgReadContent (name f) (JSString.length txt)) false;
                    EvRead (name f);
                    EvLog (MsgProcessingFile (filesProcessedCount st + 1) totalFiles (name f))
                      false]).
      assert (Q : forallb log_or_fetch front = true).
      { unfold front. rewrite forallb_app. cbn [forallb log_or_fetch].
        rewrite fetch_log_kinds. now destruct (confirms o). }
      destruct (log_or_fetch_quiet _ Q) as [Q1 Q2].
      eexists _, (EvSleep 100 :: front ++ back). split; [exact E|]. cbn [events].
      split.
      * unfold front, back. cbn [app]. f_equal. rewrite <- !app_assoc.
        reflexivity.
      * cbn [sleeps_of filter is_control].
        rewrite sleeps_of_app, filter_app, Q1, Q2. unfold back. now split.
    + rewrite (processFile_unreadable env apiUrl apiKey totalFiles f code st Hm Hc).
      eexists _, [_; _; _; _]. split; [reflexivity|]. cbn [events].
      split; [reflexivity|]. now split.
  - destruct (processFile_run env apiUrl apiKey totalFiles f st)
      as (evs & E & _ & _ & _ & _ & S).
    unfold md_file in S. rewrite (S Hm) in E.
    eexists _, [_; _]. split; [exact E|]. cbn [events].
    split; [reflexivity|]. now split.
Qed.

Lemma processFiles_kinds (apiUrl apiKey : string) (totalFiles : nat) (it : FileIter) :
  forall st, exists st' evs,
    processFiles env apiUrl apiKey totalFiles it st
    = (match fault it with Some e => Throw e | None => Ok tt end, st')
    /\ events st' = evs ++ events st
    /\ sleeps_of evs = repeat 100 (List.length (filter md_file (yielded it)))
    /\ filter is_control evs = [].
Proof.
  induction it as [| f rest IH | e]; intros st.
  - exists st, []. now repeat split.
  - destruct (processFile_kinds apiUrl apiKey totalFiles f st)
      as (st1 & evs1 & E1 & Ev1 & S1 & C1).
    destruct (IH st1) as (st2 & evs2 & E2 & Ev2 & S2 & C2).
    exists st2, (evs2 ++ evs1).
    cbn [processFiles]. unfold bind at 1. rewrite E1, E2.
    split; [reflexivity|]. split; [now rewrite Ev2, Ev1, app_assoc|].
    rewrite sleeps_of_app, filter_app, S1, S2, C1, C2.
    cbn [yielded filter]. split; [|reflexivity].
    destruct (md_file f); cbn [List.length repeat]; [|now rewrite app_nil_r].
    symmetry. apply repeat_cons.
  - exists st, []. now repeat split.
Qed.

(** A run that passes the validation, in terms of its loop. *)
Lemma startImportProcess_unfold (inp : Inputs) (files : FileList) (st : State) :
  invalid inp = false -> markdownFiles inp = Some files ->
  startImportProcess env inp st
  = (let (r, st1) :=
       processFiles env (apiUrl_of inp) (apiKey_of inp) (files_length files)
         (files_iter files)
         (mkState (opening_events (apiUrl_of inp) (files_length files) ++ events st) 0 0) in
     (Ok tt,
      mkState
        (summary_events (files_length files) (filesProcessedCount st1)
           (filesSyncedSuccessfully st1)
         ++ halt_events (match r with Throw e => Some e | Ok _ => None end)
         ++ events st1)
        (filesProcessedCount st1) (filesSyncedSuccessfully st1))).
Proof.
  intros V Ef. unfold startImportProcess. rewrite Ef, V.
  destruct st as [evs0 pc sc].
  cbv beta iota zeta delta [try_finally try_catch bind clearLog finalizeRun setProcessed
    setSynced logMessage emit get ret throw events filesProcessedCount
    filesSyncedSuccessfully opening_events].
  destruct (JSString.endsWith (apiUrl_of inp) "/api/v1"); cbn [negb app];
    destruct (processFiles _ _ _ _ _ _) as [[[] | e] [evs1 p1 s1]]; reflexivity.
Qed.

End WholeRun.

(** X13. A run that passes the validation pauses 100 ms once for every
    [.md] file the iteration yields, whether the file could be read and
    posted or not, and never for a file it skips; there is no other
    pause. *)
Theorem pauses_of_a_run (env : Env) (inp : Inputs) (st : State) :
  invalid inp = false ->
  exists files,
    markdownFiles inp = Some files
    /\ sleeps_of (events (snd (startImportProcess env inp st)))
       = repeat 100 (List.length (filter md_file (yielded (files_iter files))))
         ++ sleeps_of (events st).
Proof.
  intros V.
  destruct (markdownFiles inp) as [files|] eqn:Ef.
  2:{ unfold invalid in V. rewrite Ef, !orb_true_r in V. discriminate. }
  exists files. split; [reflexivity|].
  rewrite (startImportProcess_unfold env inp files st V Ef).
  destruct (processFiles_kinds env (apiUrl_of inp) (apiKey_of inp) (files_length files)
              (files_iter files)
              (mkState (opening_events (apiUrl_of inp) (files_length files) ++ events st) 0 0))
    as (st1 & evs & E & Ev & S & _).
  rewrite E. cbn [snd events]. rewrite Ev. cbn [events].
  rewrite !sleeps_of_app, S.
  unfold opening_events, halt_events, summary_events.
  destruct (fault (files_iter files));
    destruct (JSString.endsWith (apiUrl_of inp) "/api/v1"); reflexivity.
Qed.

Lemma pauses_of_a_run_witness :
  sleeps_of (events (snd (startImportProcess confirming three_inputs initial)))
  = [100; 100; 100]
  /\ sleeps_of (events (snd (startImportProcess confirming picture_only initial))) = [].
Proof.
  split.
  - destruct (pauses_of_a_run confirming three_inputs initial eq_refl)
      as (files & Ef & S).
    injection Ef as <-. rewrite S. reflexivity.
  - destruct (pauses_of_a_run confirming picture_only initial eq_refl)
      as (files & Ef & S).
    injection Ef as <-. rewrite S. reflexivity.
Defined.

(** X14. Every run, whatever the inputs and the service, ends normally: it
    never throws to its caller.  It clears the log once and disables the
    start button once, both at its start, and re-enables the button once, as
    its very last event; it touches the page controls at no other time. *)
Theorem run_controls (env : Env) (inp : Inputs) (st : State) :
  fst (startImportProcess env inp st) = Ok tt
  /\ filter is_control (trace (snd (startImportProcess env inp st)))
     = filter is_control (trace st)
       ++ [EvClearLog; EvButtonDisabled true; EvButtonDisabled false]
  /\ (exists later,
        trace (snd (startImportProcess env inp st))
        = trace st ++ [EvClearLog; EvLog MsgLogCleared false; EvButtonDisabled true]
          ++ later ++ [EvButtonDisabled false]).
Proof.
  destruct (invalid inp) eqn:V.
  - rewrite (startImportProcess_rejected env inp st V).
    cbn [fst snd]. unfold trace. cbn [events].
    split; [reflexivity|]. split.
    + rewrite rev_app_distr, filter_app. reflexivity.
    + exists [EvLog MsgStarting false; EvLog MsgValidationError true].
      rewrite rev_app_distr. reflexivity.
  - destruct (markdownFiles inp) as [files|] eqn:Ef.
    2:{ unfold invalid in V. rewrite Ef, !orb_true_r in V. discriminate. }
    rewrite (startImportProcess_unfold env inp files st V Ef).
    destruct (processFiles_kinds env (apiUrl_of inp) (apiKey_of inp) (files_length files)
                (files_iter files)
                (mkState (opening_events (apiUrl_of inp) (files_length files) ++ events st) 0 0))
      as (st1 & evs & E & Ev & _ & C).
    rewrite E. cbn [fst snd]. unfold trace. cbn [events]. rewrite Ev. cbn [events].
    split; [reflexivity|]. split.
    + rewrite !rev_app_distr, !filter_app, !filter_rev, C.
      unfold opening_events, halt_events, summary_events.
      destruct (fault (files_iter files));
        destruct (JSString.endsWith (apiUrl_of inp) "/api/v1");
        cbn; rewrite <- ?app_assoc; reflexivity.
    + exists ([EvLog MsgStarting false]
              ++ (if JSString.endsWith (apiUrl_of inp) "/api/v1"
                  then [] else [EvLog MsgUrlWarning true])
              ++ [EvLog (MsgProcessingAll (files_length files)) false]
              ++ rev evs
              ++ rev (halt_events (fault (files_iter files)))
              ++ [EvLog MsgSummary false;
                  EvLog (MsgTotalSelected (files_length files)) false;
                  EvLog (MsgAttempted (filesProcessedCount st1)) false;
                  EvLog (MsgImported (filesSyncedSuccessfully st1)) false;
                  EvLog MsgEndOfRun false]).
      unfold opening_events, summary_events.
      destruct (fault (files_iter files));
        destruct (JSString.endsWith (apiUrl_of inp) "/api/v1");
        cbn [halt_events app rev];
        repeat (rewrite rev_app_distr; cbn [rev app]);
        rewrite <- ?app_assoc; cbn [app]; reflexivity.
Qed.

(** X15. A run that passes the validation opens with the same events every
    time: the log is cleared, the button disabled, the start line written;
    the next line is the warning about the URL, logged as an error entry,
    exactly when the normalised URL does not end with [/api/v1]; then the
    run goes on to announce the number of selected files, warning or not. *)
Theorem run_opening (env : Env) (inp : Inputs) (st : State) :
  invalid inp = false ->
  exists files later,
    markdownFiles inp = Some files
    /\ trace (snd (startImportProcess env inp st))
       = trace st
         ++ [EvClearLog; EvLog MsgLogCleared false; EvButtonDisabled true;
             EvLog MsgStarting false]
         ++ (if JSString.endsWith (apiUrl_of inp) "/api/v1"
             then [] else [EvLog MsgUrlWarning true])
         ++ [EvLog (MsgProcessingAll (files_length files)) false]
         ++ later.
Proof.
  intros V.
  destruct (startImportProcess_started env inp st V)
    as (files & body & Ef & E & _).
  exists files.
  eexists (rev (summary_events _ _ _ ++ halt_events (fault (files_iter files)) ++ body)).
  split; [exact Ef|]. rewrite E. unfold trace. cbn [snd events].
  rewrite !app_assoc. rewrite rev_app_distr. rewrite rev_app_distr.
  rewrite <- !app_assoc. f_equal.
  unfold opening_events.
  destruct (JSString.endsWith (apiUrl_of inp) "/api/v1"); cbn [app rev];
    rewrite <- ?app_assoc; reflexivity.
Qed.

Lemma run_opening_witness :
  exists later,
    trace (snd (startImportProcess confirming
                  (mkInputs "http://localhost:3000" sample_key
                     (Some (FileList_of three_files))) initial))
    = [EvClearLog; EvLog MsgLogCleared false; EvButtonDisabled true;
       EvLog MsgStarting false; EvLog MsgUrlWarning true;
       EvLog (MsgProcessingAll 3) false] ++ later.
Proof.
  destruct (run_opening confirming
              (mkInputs "http://localhost:3000" sample_key
                 (Some (FileList_of three_files))) initial eq_refl)
    as (files & later & Ef & T).
  injection Ef as <-. exists later. exact T.
Defined.

(** ** What is sent *)

Lemma expected_requests_origin (apiUrl apiKey : string) (files : list File) (r : Request) :
  In r (expected_requests apiUrl apiKey files) ->
  exists f txt,
    In f files /\ is_md (name f) = true /\ content f = inl txt
    /\ r = bookmark_request apiUrl apiKey (getFileNameWithoutExtension (name f)) txt.
Proof.
  induction files as [|g files IH]; [intros []|].
  cbn [expected_requests]. unfold request_for at 1.
  destruct (is_md (name g)) eqn:Hm.
  - destruct (content g) as [txt | code] eqn:Hc.
    + intros [<- | H].
      * exists g, txt. repeat split; auto. now left.
      * destruct (IH H) as (f & t & I & R). exists f, t. split; [now right | exact R].
    + intros H. destruct (IH H) as (f & t & I & R).
      exists f, t. split; [now right | exact R].
  - intros H. destruct (IH H) as (f & t & I & R).
    exists f, t. split; [now right | exact R].
Qed.

Lemma truncateTitle_bound (title : string) :
  String.length (truncateTitle title) <= 255.
Proof.
  unfold truncateTitle, MAX_KARAKEEP_TITLE_LENGTH.
  destruct (Nat.le_gt_cases (String.length title) 255) as [L | L].
  - now rewrite (truncateTitleTo_short 255 title L).
  - rewrite truncateTitleTo_length; [lia | exact L].
Qed.

(** The requests of a run from the initial state, in the order they were
    made. *)
Lemma run_requests (env : Env) (inp : Inputs) :
  rev (requests_of (events (snd (startImportProcess env inp initial))))
  = if invalid inp then []
    else match markdownFiles inp with
         | Some files =>
             expected_requests (apiUrl_of inp) (apiKey_of inp) (yielded (files_iter files))
         | None => []
         end.
Proof.
  destruct (invalid inp) eqn:V.
  - now rewrite (startImportProcess_rejected env inp initial V).
  - destruct (started_run_observed env inp V)
      as (files & earlier & Ef & _ & _ & _ & _ & Rq & _).
    cbv zeta in Rq. rewrite Ef, Rq. apply rev_involutive.
Qed.

(** X16. Every network call of every run is a POST to the normalised base
    URL followed by [/bookmarks], carries the trimmed API key as bearer
    token together with the JSON content type and accept headers, and has a
    payload of type ["text"] whose title is at most 255 characters long and
    whose text is the content of a selected [.md] file. *)
Theorem every_request_is_a_bookmark_post (env : Env) (inp : Inputs) (r : Request) :
  In r (requests_of (events (snd (startImportProcess env inp initial)))) ->
  req_url r = (apiUrl_of inp ++ "/bookmarks")%string
  /\ req_method r = "POST"
  /\ req_headers r
     = [("Authorization", ("Bearer " ++ apiKey_of inp)%string);
        ("Content-Type", "application/json");
        ("Accept", "application/json")]
  /\ exists payload files f,
       req_body r = Some payload
       /\ p_type payload = "text"
       /\ JSString.length (p_title payload) <= 255
       /\ markdownFiles inp = Some files
       /\ In f (yielded (files_iter files))
       /\ is_md (name f) = true
       /\ content f = inl (p_text payload).
Proof.
  intros H. apply in_rev in H. rewrite run_requests in H.
  destruct (invalid inp); [destruct H|].
  destruct (markdownFiles inp) as [files|]; [|destruct H].
  destruct (expected_requests_origin _ _ _ _ H) as (f & txt & I & Hm & Hc & ->).
  repeat split.
  exists (make_payload (getFileNameWithoutExtension (name f)) txt), files, f.
  repeat split; auto. apply truncateTitle_bound.
Qed.

Lemma every_request_is_a_bookmark_post_witness :
  req_url (bookmark_request sample_url sample_key "a" "alpha")
  = "http://localhost:3000/api/v1/bookmarks"
  /\ req_headers (bookmark_request sample_url sample_key "a" "alpha")
     = [("Authorization", "Bearer secret");
        ("Content-Type", "application/json");
        ("Accept", "application/json")].
Proof.
  assert (I : In (bookmark_request sample_url sample_key "a" "alpha")
                (requests_of (events (snd (startImportProcess confirming three_inputs
                                             initial)))))
    by (vm_compute; tauto).
  destruct (every_request_is_a_bookmark_post confirming three_inputs _ I)
    as (U & _ & Hd & _).
  exact (conj U Hd).
Defined.

Lemma expected_requests_app (apiUrl apiKey : string) (a b : list File) :
  expected_requests apiUrl apiKey (a ++ b)
  = expected_requests apiUrl apiKey a ++ expected_requests apiUrl apiKey b.
Proof.
  induction a as [|f a IH]; [reflexivity|].
  cbn [app expected_requests]. destruct (request_for apiUrl apiKey f); now rewrite IH.
Qed.

Lemma run_requests_of_list (env : Env) (url key : string) (l : list File) :
  rev (requests_of (events (snd (startImportProcess env
         (mkInputs url key (Some (FileList_of l))) initial))))
  = if String.eqb (JSString.removeTrailingSlash (JSString.trim url)) EmptyString
       || String.eqb (JSString.trim key) EmptyString
    then []
    else expected_requests (JSString.removeTrailingSlash (JSString.trim url))
           (JSString.trim key) l.
Proof.
  rewrite run_requests.
  unfold invalid, apiUrl_of, apiKey_of.
  cbn [karakeepUrl karakeepApiKey markdownFiles files_length files_iter FileList_of].
  rewrite yielded_of_list.
  destruct (String.eqb (JSString.removeTrailingSlash (JSString.trim url)) EmptyString
            || String.eqb (JSString.trim key) EmptyString); [reflexivity|].
  destruct l; reflexivity.
Qed.

(** X17. What a run posts is a function of the form fields and the selected
    files alone: the answers of the service play no part (nothing is
    retried, nothing is held back after a failure), and a selection posts
    what its first part posts followed by what its second part posts, so a
    file that is selected twice is posted twice. *)
Theorem requests_depend_on_files_only
  (env1 env2 : Env) (url key : string) (l1 l2 : list File) :
  let posted env l :=
    rev (requests_of (events (snd (startImportProcess env
           (mkInputs url key (Some (FileList_of l))) initial)))) in
  posted env1 l1 = posted env2 l1
  /\ posted env1 (l1 ++ l2) = posted env1 l1 ++ posted env1 l2
  /\ posted env1 (l1 ++ l1) = posted env2 l1 ++ posted env2 l1.
Proof.
  cbv beta zeta. rewrite !run_requests_of_list.
  destruct (_ || _); [now repeat split|].
  rewrite !expected_requests_app. now repeat split.
Qed.

(** ** The counters *)

Lemma three_way_split (apiUrl apiKey : string) (files : list File) :
  List.length (filter (fun f => negb (md_file f)) files)
  + List.length (filter unreadable_md files)
  + List.length (expected_requests apiUrl apiKey files)
  = List.length files.
Proof.
  induction files as [|f files IH]; [reflexivity|].
  cbn [filter expected_requests]. unfold request_for, md_file, unreadable_md in *.
  destruct (is_md (name f)); cbn [negb andb].
  - destruct (content f); cbn [List.length]; lia.
  - cbn [List.length]. lia.
Qed.

Lemma filter_length_le {A : Type} (p : A -> bool) (l : list A) :
  List.length (filter p l) <= List.length l.
Proof.
  induction l as [|x l IH]; [apply Nat.le_refl|].
  cbn [filter]. destruct (p x); cbn [List.length]; lia.
Qed.

(** X18. At the end of a run that passes the validation every file the
    iteration yielded is accounted for exactly once: it was skipped with a
    warning, or reported with a read error, or posted; the three numbers add
    up to the processed count.  The succeeded count never exceeds the number
    of network calls, which never exceeds the number of files read, which
    never exceeds the processed count; and for an ordinary selection the
    processed count is the number of selected files. *)
Theorem run_accounting (env : Env) (inp : Inputs) :
  invalid inp = false ->
  exists files,
    markdownFiles inp = Some files
    /\ let st' := snd (startImportProcess env inp initial) in
       List.length (skipped_of (events st'))
       + List.length (file_errors_of (events st'))
       + List.length (requests_of (events st'))
       = filesProcessedCount st'
       /\ filesSyncedSuccessfully st' <= List.length (requests_of (events st'))
       /\ List.length (requests_of (events st')) <= List.length (reads_of (events st'))
       /\ List.length (reads_of (events st')) <= filesProcessedCount st'
       /\ (forall l, files = FileList_of l ->
             filesProcessedCount st' = files_length files).
Proof.
  intros V.
  destruct (started_run_observed env inp V)
    as (files & earlier & Ef & _ & P & S & _ & Rq & Rd & Fe & Sk).
  exists files. split; [exact Ef|]. cbv zeta in *.
  rewrite P, S, Rq, Rd, Fe, Sk.
  rewrite !length_rev, !length_map.
  split; [apply three_way_split|].
  split; [apply succeeded_from_le|].
  split; [apply expected_requests_length|].
  split; [apply filter_length_le|].
  intros l ->. cbn [files_iter files_length FileList_of].
  now rewrite yielded_of_list.
Qed.

Lemma run_accounting_witness :
  let st' := snd (startImportProcess confirming three_inputs initial) in
  List.length (skipped_of (events st'))
  + List.length (file_errors_of (events st'))
  + List.length (requests_of (events st'))
  = 3
  /\ filesProcessedCount st' = 3.
Proof.
  destruct (run_accounting confirming three_inputs eq_refl)
    as (files & Ef & A & _ & _ & _ & T).
  injection Ef as <-. cbv zeta in *.
  rewrite A. split; exact (T three_files eq_refl).
Defined.


(** ** The note of the payload *)

(** C4. The note of the payload is built from the title and a fixed
    lower-case [.md], not from the name of the file.  On the selection of the
    one file [c.MD] with the content ["gamma"] the run makes one network
    call, a POST to [/bookmarks] with the title ["c"], the text ["gamma"],
    the type ["text"], [archived] and [favourited] false and an empty
    summary; its note is ["Imported from Markdown file: c.md"], which is not
    the note of the original file name [c.MD].  The same holds for every
    name that ends with [.MD]: the file passes the extension test and its
    note ends with [.md]. *)
Theorem note_of_upper_case_extension :
  is_md "c.MD" = true
  /\ rev (requests_of (events (snd (startImportProcess confirming upper_case_inputs
                                     initial))))
     = [ {| req_url := "http://localhost:3000/api/v1/bookmarks";
            req_method := "POST";
            req_headers := [("Authorization", "Bearer secret");
                            ("Content-Type", "application/json");
                            ("Accept", "application/json")];
            req_body :=
              Some {| p_title := "c";
                      p_text := "gamma";
                      p_type := "text";
                      p_archived := false;
                      p_favourited := false;
                      p_note := "Imported from Markdown file: c.md";
                      p_summary := EmptyString |} |} ]
  /\ "Imported from Markdown file: c.md"
     <> ("Imported from Markdown file: " ++ "c.MD")%string
  /\ (forall p txt,
        is_md (p ++ ".MD")%string = true
        /\ p_note (make_payload (getFileNameWithoutExtension (p ++ ".MD")%string) txt)
           = ("Imported from Markdown file: " ++ p ++ ".md")%string).
Proof.
  split; [reflexivity|]. split; [vm_compute; reflexivity|].
  split; [discriminate|].
  intros p txt. split.
  - unfold is_md. rewrite toLowerCase_app. apply endsWith_app.
  - unfold make_payload. cbn [p_note].
    now rewrite (title_of_match p "MD" eq_refl).
Qed.
